(** * Wechaty puppet-web [Browser]: session lifecycle controller

    A shallow embedding of [src/puppet-web/browser.ts].  The methods of the
    [Browser] class are translated into programs of a small free monad
    [Prog] whose nodes are the places where the class touches something
    outside itself: its own [StateSwitch], the driver and cookie
    collaborators, the process host, the event emitter and the logger.
    Two semantics are given to these programs: a sequential one ([run]), in
    which a single control flow calls a method and waits for it, and an
    interleaved one ([exec]), in which several calls are in flight and the
    scheduler resumes them at their suspension points, as the JavaScript
    event loop does.

    What is kept and what is left out:
    - a log line keeps its level and its format string, not its arguments;
    - [emit] records the event; the listeners are host code and are not run;
    - the suspension points are the [await]s on a collaborator and the
      back-off delays; awaiting one of the class's own methods is plain
      sequencing;
    - a promise may never settle: [driver.get] is the one call the class
      guards with a timer, any other such [await] leaves the caller
      suspended for ever;
    - numbers are the safe integers of JavaScript (at most [2^53 - 1] in
      absolute value), strings are sequences of bytes. *)

From Stdlib Require Import ZArith NArith List String Ascii Bool Lia.
From Stdlib Require Import DecimalString.
Import ListNotations.
Local Open Scope string_scope.
Local Open Scope Z_scope.

Set Implicit Arguments.

(** ** JavaScript values and errors *)

(** A JavaScript [Error]: only its [message] is observed by the class. *)
Record Error : Type := mkError { message : string }.

(** The values a script evaluated in the browser can hand back.  Objects
    and arrays are not needed.  [VNum n] stands for the JavaScript number
    [n] when [n] is a safe integer, [-(2^53 - 1) <= n <= 2^53 - 1]; beyond
    that range an integer need not be a JavaScript number at all, and
    [VNum n] stands for none. *)
Inductive Value : Type :=
| VUndefined
| VNull
| VBool (b : bool)
| VNum (n : Z)
| VStr (s : string).

Definition string_of_Z (n : Z) : string := NilZero.string_of_int (Z.to_int n).

(** [ToBoolean]. *)
Definition truthy (v : Value) : bool :=
  match v with
  | VUndefined | VNull => false
  | VBool b => b
  | VNum n => negb (n =? 0)
  | VStr s => negb (String.eqb s "")
  end.

(** [ToString], as used by ['' + v].  A safe integer is printed with all
    its decimal digits, as JavaScript prints it; the text of a number
    outside that range (rounded digits, exponent form from [1e21] on) is
    not modelled, and statements about the text of a value are made for
    [exact_text] values only. *)
Definition to_string (v : Value) : string :=
  match v with
  | VUndefined => "undefined"
  | VNull => "null"
  | VBool true => "true"
  | VBool false => "false"
  | VNum n => string_of_Z n
  | VStr s => s
  end.

(** The values whose text [to_string] gives as JavaScript does. *)
Definition exact_text (v : Value) : Prop :=
  match v with
  | VNum n => - (2 ^ 53 - 1) <= n <= 2 ^ 53 - 1
  | _ => True
  end.

(** Strict equality [v === 2]. *)
Definition strict_eq_2 (v : Value) : bool :=
  match v with
  | VNum n => n =? 2
  | _ => false
  end.

Inductive Result (R : Type) : Type :=
| Ok (r : R)
| Err (e : Error).
Arguments Ok {R} r.
Arguments Err {R} e.

(** ** The state switch *)

Inductive State : Type := open_ | close.

Definition State_eqb (a b : State) : bool :=
  match a, b with
  | open_, open_ | close, close => true
  | _, _ => false
  end.

Module StateSwitch.

(** Modelled from the spec: the [StateSwitch] class comes from the
    third-party package [state-switch], which is not part of the sources.
    The data model of the specification gives it three fields, [target],
    [current] and [inProcess], and a derived [stable]. *)
Record t : Type := mk {
  target_ : State;
  current_ : State;
  inProcess : bool
}.

(** Modelled from the spec: [new StateSwitch('Browser', 'close', log)],
    the initial closed state. *)
Definition init (s : State) : t := mk s s false.

(** Modelled from the spec: [setTarget(state)]. *)
Definition target (s : State) (sw : t) : t :=
  mk s (current_ sw) (inProcess sw).

(** Modelled from the spec: [setCurrent(state, stable=true)]: if [stable]
    is false, marks [inProcess=true] and records the state as
    provisional; with [stable=true] it clears [inProcess] and commits the
    state. *)
Definition current (s : State) (stable : bool) (sw : t) : t :=
  mk (target_ sw) s (negb stable).

(** Modelled from the spec: [isInProcess()]. *)
Definition inprocess (sw : t) : bool := inProcess sw.

(** Modelled from the spec: [stable] is derived, true iff
    [target == current] and [inProcess == false]. *)
Definition stable (sw : t) : bool :=
  State_eqb (target_ sw) (current_ sw) && negb (inProcess sw).

End StateSwitch.

(** ** The controller object and its collaborators *)

(** [BrowserSetting] and the fields of [Browser] the methods read:
    [this.state], and whether [this.driver] is set. *)
Record Browser : Type := mkBrowser {
  head : string;
  sessionFile : string;
  state : StateSwitch.t;
  driver : bool
}.

(** One entry of the array [psTree] hands to its callback.  Depending on the
    platform either [COMMAND] or [COMM] is present. *)
Record Child : Type := mkChild {
  PID : Z;
  COMMAND : option string;
  COMM : option string
}.

(** Asynchronous collaborator calls, the operands of [await]. *)
Inductive Call : Type :=
| DriverInit
| DriverGet (url : string)
| DriverClose
| DriverQuit
| DriverExecuteScript (script : string) (args : list Value)
| CookieLoad
| PsTree.

Definition Resp (c : Call) : Type :=
  match c with
  | DriverExecuteScript _ _ => Value
  | PsTree => list Child
  | _ => unit
  end.

Inductive Level : Type := silly | verbose | warn | error.

(** What the outside world sees of a run, oldest first. *)
Inductive Event : Type :=
| EvCall (c : Call)           (* an asynchronous call is issued *)
| EvTimeout (ms : N)          (* a [setTimeout] guard fired *)
| EvSleep (ms : N)            (* a back-off delay elapsed *)
| EvHostname                  (* [cookie.hostname()] *)
| EvKill (pid : Z)            (* [process.kill(pid, 'SIGKILL')] *)
| EvEmit (name : string) (arg : Value).

(** The collaborators.  Each answer may depend on everything that happened
    before.  [latency] tells after how many milliseconds the promise of an
    asynchronous call settles, [None] when it never does. *)
Record Env : Type := mkEnv {
  respond : list Event -> forall c : Call, Result (Resp c);
  latency : list Event -> Call -> option N;
  cookie_hostname : list Event -> option string;
  process_kill : list Event -> Z -> Result unit
}.

Record World : Type := mkWorld {
  browser : Browser;
  io : list Event;
  logs : list (Level * string)
}.

Definition set_state (f : StateSwitch.t -> StateSwitch.t) (w : World) : World :=
  let b := browser w in
  mkWorld (mkBrowser (head b) (sessionFile b) (f (state b)) (driver b))
          (io w) (logs w).

Definition add_event (e : Event) (w : World) : World :=
  mkWorld (browser w) (io w ++ [e]) (logs w).

Definition add_log (l : Level) (m : string) (w : World) : World :=
  mkWorld (browser w) (io w) (logs w ++ [(l, m)]).

(** ** Programs *)

(** The body of a method, as a tree of the steps it takes. *)
Inductive Prog (A : Type) : Type :=
| Ret (a : A)                                        (* return a *)
| Throw (e : Error)                                  (* throw e *)
| Read (k : Browser -> Prog A)                       (* read the fields of this *)
| Modify (f : StateSwitch.t -> StateSwitch.t) (p : Prog A)  (* a setter of this.state *)
| Log (l : Level) (m : string) (p : Prog A)          (* log.l('PuppetWebBrowser', m, ...) *)
| Emit (name : string) (arg : Value) (p : Prog A)    (* this.emit(name, arg) *)
| Hostname (k : option string -> Prog A)             (* this.cookie.hostname() *)
| Kill (pid : Z) (k : Result unit -> Prog A)         (* process.kill(pid, 'SIGKILL') *)
| Await (c : Call) (k : Result (Resp c) -> Prog A)   (* await a collaborator *)
| AwaitRace (c : Call) (ms : N) (k : option (Result (Resp c)) -> Prog A)
                                                     (* the same, against a timer *)
| Sleep (ms : N) (p : Prog A).                       (* a delay of ms milliseconds *)

Arguments Ret {A} a.
Arguments Throw {A} e.
Arguments Read {A} k.
Arguments Modify {A} f p.
Arguments Log {A} l m p.
Arguments Emit {A} name arg p.
Arguments Hostname {A} k.
Arguments Kill {A} pid k.
Arguments Await {A} c k.
Arguments AwaitRace {A} c ms k.
Arguments Sleep {A} ms p.

Fixpoint bind {A B : Type} (p : Prog A) (f : A -> Prog B) : Prog B :=
  match p with
  | Ret a => f a
  | Throw e => Throw e
  | Read k => Read (fun b => bind (k b) f)
  | Modify g q => Modify g (bind q f)
  | Log l m q => Log l m (bind q f)
  | Emit n a q => Emit n a (bind q f)
  | Hostname k => Hostname (fun h => bind (k h) f)
  | Kill pid k => Kill pid (fun r => bind (k r) f)
  | Await c k => Await c (fun r => bind (k r) f)
  | AwaitRace c ms k => AwaitRace c ms (fun r => bind (k r) f)
  | Sleep ms q => Sleep ms (bind q f)
  end.

(** [try { p } catch (e) { h e }] *)
Fixpoint try_catch {A : Type} (p : Prog A) (h : Error -> Prog A) : Prog A :=
  match p with
  | Ret a => Ret a
  | Throw e => h e
  | Read k => Read (fun b => try_catch (k b) h)
  | Modify g q => Modify g (try_catch q h)
  | Log l m q => Log l m (try_catch q h)
  | Emit n a q => Emit n a (try_catch q h)
  | Hostname k => Hostname (fun x => try_catch (k x) h)
  | Kill pid k => Kill pid (fun r => try_catch (k r) h)
  | Await c k => Await c (fun r => try_catch (k r) h)
  | AwaitRace c ms k => AwaitRace c ms (fun r => try_catch (k r) h)
  | Sleep ms q => Sleep ms (try_catch q h)
  end.

(** [try { p } finally { f }]: [f] runs on both exits; when [f] itself
    throws, its error replaces the outcome of [p]. *)
Fixpoint try_finally {A : Type} (p : Prog A) (f : Prog unit) : Prog A :=
  match p with
  | Ret a => bind f (fun _ => Ret a)
  | Throw e => bind f (fun _ => Throw e)
  | Read k => Read (fun b => try_finally (k b) f)
  | Modify g q => Modify g (try_finally q f)
  | Log l m q => Log l m (try_finally q f)
  | Emit n a q => Emit n a (try_finally q f)
  | Hostname k => Hostname (fun x => try_finally (k x) f)
  | Kill pid k => Kill pid (fun r => try_finally (k r) f)
  | Await c k => Await c (fun r => try_finally (k r) f)
  | AwaitRace c ms k => AwaitRace c ms (fun r => try_finally (k r) f)
  | Sleep ms q => Sleep ms (try_finally q f)
  end.

Declare Scope prog_scope.
Delimit Scope prog_scope with prog.
Notation "x <- p ;; q" := (bind p (fun x => q))
  (at level 61, p at next level, right associativity) : prog_scope.
Notation "p ;; q" := (bind p (fun _ => q))
  (at level 61, right associativity) : prog_scope.
Local Open Scope prog_scope.

Definition read : Prog Browser := Read (fun b => Ret b).
Definition modify (f : StateSwitch.t -> StateSwitch.t) : Prog unit := Modify f (Ret tt).
Definition log (l : Level) (m : string) : Prog unit := Log l m (Ret tt).
Definition emit (name : string) (arg : Value) : Prog unit := Emit name arg (Ret tt).
Definition sleep (ms : N) : Prog unit := Sleep ms (Ret tt).

(** [await c]: a rejected promise is re-thrown at the [await]. *)
Definition await (c : Call) : Prog (Resp c) :=
  Await c (fun r => match r with Ok v => Ret v | Err e => Throw e end).

(** ** Sequential semantics *)

Inductive Completion (A : Type) : Type :=
| Returned (a : A)
| Thrown (e : Error)
| Hung.
Arguments Returned {A} a.
Arguments Thrown {A} e.
Arguments Hung {A}.

(** One control flow runs [p] to its end.  An [await] on a promise that never
    settles leaves the flow suspended for ever ([Hung]).  [AwaitRace c ms k]
    is the promise built in [open()]: the call [c] against a timer of [ms]
    milliseconds; [k] receives [None] when the timer fired first. *)
Fixpoint run {A : Type} (env : Env) (p : Prog A) (w : World) : World * Completion A :=
  match p with
  | Ret a => (w, Returned a)
  | Throw e => (w, Thrown e)
  | Read k => run env (k (browser w)) w
  | Modify f q => run env q (set_state f w)
  | Log l m q => run env q (add_log l m w)
  | Emit n a q => run env q (add_event (EvEmit n a) w)
  | Hostname k =>
      let w' := add_event EvHostname w in
      run env (k (cookie_hostname env (io w'))) w'
  | Kill pid k =>
      let w' := add_event (EvKill pid) w in
      run env (k (process_kill env (io w') pid)) w'
  | Await c k =>
      let w' := add_event (EvCall c) w in
      match latency env (io w') c with
      | Some _ => run env (k (respond env (io w') c)) w'
      | None => (w', Hung)
      end
  | AwaitRace c ms k =>
      let w' := add_event (EvCall c) w in
      match latency env (io w') c with
      | Some t =>
          if (t <? ms)%N then run env (k (Some (respond env (io w') c))) w'
          else run env (k None) (add_event (EvTimeout ms) w')
      | None => run env (k None) (add_event (EvTimeout ms) w')
      end
  | Sleep ms q => run env q (add_event (EvSleep ms) w)
  end.

(** ** Regular expressions used by the class *)

Definition lower (a : ascii) : ascii :=
  let n := nat_of_ascii a in
  if ((65 <=? n) && (n <=? 90))%nat then ascii_of_nat (n + 32) else a.

(** [s] starts with [p], letters compared without case (flag [i]). *)
Fixpoint starts_with_i (p s : string) : bool :=
  match p, s with
  | EmptyString, _ => true
  | String _ _, EmptyString => false
  | String a p', String b s' => Ascii.eqb (lower a) (lower b) && starts_with_i p' s'
  end.

Fixpoint drop (n : nat) (s : string) : string :=
  match n, s with
  | O, _ => s
  | S n', String _ s' => drop n' s'
  | S _, EmptyString => EmptyString
  end.

(** Some suffix of [s] satisfies [f]: an unanchored match. *)
Fixpoint exists_suffix (f : string -> bool) (s : string) : bool :=
  f s || match s with
         | EmptyString => false
         | String _ s' => exists_suffix f s'
         end.

Definition line_terminator (a : ascii) : bool :=
  Ascii.eqb a "010"%char || Ascii.eqb a "013"%char.

(** [.*] followed by a match of [f]: [.] does not cross a line terminator. *)
Fixpoint dot_star_then (f : string -> bool) (s : string) : bool :=
  f s || match s with
         | EmptyString => false
         | String a s' => if line_terminator a then false else dot_star_then f s'
         end.

(** [new RegExp('phantomjs', 'i').test(s)] *)
Definition test_phantomjs (s : string) : bool :=
  exists_suffix (starts_with_i "phantomjs") s.

(** [new RegExp('chrome(?!driver)|chromium', 'i').test(s)] *)
Definition test_chrome (s : string) : bool :=
  exists_suffix
    (fun t => (starts_with_i "chrome" t && negb (starts_with_i "driver" (drop 6 t)))
              || starts_with_i "chromium" t) s.

(** [crashRegex.test(s)] of [quit()]. *)
Definition crashRegex_test (s : string) : bool :=
  exists_suffix
    (fun t => starts_with_i "ECONNREFUSED" t
              || (starts_with_i "WebDriverError: " t
                  && dot_star_then (starts_with_i " not reachable") (drop 16 t))
              || starts_with_i
                   "NoSuchWindowError: no such window: target window already closed" t) s.

(** ** The methods of [Browser] *)

(** [dead(forceReason?)] *)
Definition dead (forceReason : Value) : Prog bool :=
  b <- read ;;
  let st := state b in
  if State_eqb (StateSwitch.target_ st) close
     || State_eqb (StateSwitch.current_ st) close
  then
    log verbose "dead() state target(%s) current(%s) stable(%s)" ;;
    log verbose "dead() browser is in dead state" ;;
    Ret true
  else
    r <- (if truthy forceReason then
            log verbose "dead(forceReason=%s) %s" ;;
            Ret (true, forceReason)
          else if negb (driver b) then
            Ret (true, VStr "no driver or session")
          else Ret (false, VUndefined)) ;;
    let '(dead, msg) := r in
    (if dead : bool then
       log warn "dead(%s) because %s" ;;
       if State_eqb (StateSwitch.target_ st) open_
          && State_eqb (StateSwitch.current_ st) open_
          && StateSwitch.stable st
       then
         log verbose "dead() emit a `dead` event because %s" ;;
         emit "dead" msg
       else
         log warn "dead() wil not emit `dead` event because states are: target(%s), current(%s), stable(%s)"
     else Ret tt) ;;
    Ret dead.

(** ['' + child.COMMAND + child.COMM]: a missing field prints as
    [undefined]. *)
Definition command_text (c : Child) : string :=
  let show (o : option string) :=
    match o with Some s => s | None => "undefined" end in
  show (COMMAND c) ++ show (COMM c).

(** [children.filter(child => ...)] with its per-match log line. *)
Fixpoint filter_children (matches : string -> bool) (children : list Child)
  : Prog (list Child) :=
  match children with
  | [] => Ret []
  | child :: rest =>
      if matches (command_text child) then
        log silly "getBrowserPids() child: %s" ;;
        kept <- filter_children matches rest ;;
        Ret (child :: kept)
      else filter_children matches rest
  end.

(** [getBrowserPidList()] *)
Definition getBrowserPidList : Prog (list Z) :=
  log verbose "getBrowserPidList()" ;;
  b <- read ;;
  try_catch
    (children <- await PsTree ;;
     matchRegex <-
       (if String.eqb (head b) "phantomjs" then Ret test_phantomjs
        else if String.eqb (head b) "chrome" || String.eqb (head b) "chrome-headless"
        then Ret test_chrome
        else
          let e := mkError ("unsupported head: " ++ head b) in
          log warn "getBrowserPids() for %s" ;;
          Throw e) ;;
     kept <- filter_children matchRegex children ;;
     Ret (map PID kept))
    (fun e =>
       log error "getBrowserPidList() exception: %s" ;;
       Throw e).

(** Modelled from the spec: [retryPromise] comes from the third-party
    package [retry-promise], which is not part of the sources.  It polls up
    to [max] times with linear back-off: attempt [i] (counted from 1) runs
    [fn i]; when it fails and the budget is not exhausted, the next attempt
    starts [i * backoff] milliseconds later; when the budget is exhausted
    the last error is the failure of the whole. *)
Fixpoint retryAttempt {A : Type} (remaining : nat) (backoff : N) (i : N)
  (fn : N -> Prog A) : Prog A :=
  try_catch (fn i)
    (fun err =>
       match remaining with
       | O => Throw err
       | S remaining' =>
           sleep (i * backoff) ;;
           retryAttempt remaining' backoff (i + 1) fn
       end).

(** Modelled from the spec: [retryPromise({max, backoff}, fn)], at most
    [max] attempts, the first one numbered 1. *)
Definition retryPromise {A : Type} (max : nat) (backoff : N) (fn : N -> Prog A) : Prog A :=
  retryAttempt (max - 1) backoff 1 fn.

(** [pidList.forEach(pid => { try { process.kill(pid, 'SIGKILL') } catch ... })] *)
Fixpoint kill_each (pidList : list Z) : Prog unit :=
  match pidList with
  | [] => Ret tt
  | pid :: rest =>
      Kill pid (fun r =>
        match r with
        | Ok _ => kill_each rest
        | Err e =>
            log warn "clean(kill=true) process.kill(%d, SIGKILL) exception: %s" ;;
            kill_each rest
        end)
  end.

Definition clean_max : nat := 15.
Definition clean_backoff : N := 100.

(** The function handed to [retryPromise] by [clean()]. *)
Definition clean_poll (attempt : N) : Prog unit :=
  log silly "clean() retryPromise: attempt %s time for timeout %s" ;;
  pidList <- getBrowserPidList ;;
  if (0 <? List.length pidList)%nat then
    Throw (mkError ("browser number: " ++ string_of_Z (Z.of_nat (List.length pidList))))
  else Ret tt.

(** [if (kill) { ... }] of [clean()]: issue #86, kill orphan browser
    processes. *)
Definition clean_kill (kill : bool) : Prog unit :=
  if kill then
    pidList <- getBrowserPidList ;;
    log verbose "clean() %d browsers will be killed" ;;
    kill_each pidList
  else Ret tt.

(** [clean(kill = false)] *)
Definition clean (kill : bool) : Prog unit :=
  log verbose "clean(kill=%s)" ;;
  clean_kill kill ;;
  retryPromise clean_max clean_backoff clean_poll.

(** The driver part of the [try] block of [quit()]: [close()] then
    [quit()], each with its own [.catch]. *)
Definition quit_driver : Prog unit :=
  Await DriverClose (fun r =>
    match r with
    | Ok _ => Ret tt
    | Err e => log error "quit() this.driver.close() exception %s"
    end) ;;
  log silly "quit() driver.close() done" ;;
  Await DriverQuit (fun r =>
    match r with
    | Ok _ => Ret tt
    | Err e => log error "quit() this.driver.quit() exception %s"
    end) ;;
  log silly "quit() driver.quit() done".

(** [try { await this.clean() } catch (e) { await this.clean(true) }] *)
Definition quit_cleanup : Prog unit :=
  try_catch (clean false) (fun e => clean true).

(** The outer [catch (e) { ... }] of [quit()]. *)
Definition quit_catch (e : Error) : Prog unit :=
  log warn "quit() exception: %s" ;;
  if crashRegex_test (message e)
  then log warn "driver.quit() browser crashed"
  else log warn "driver.quit() exception: %s".

(** [try { ... } catch (e) { ... } finally { this.state.current('close') }]
    of [quit()]. *)
Definition quit_body : Prog unit :=
  try_finally
    (try_catch (quit_driver ;; quit_cleanup) quit_catch)
    (modify (StateSwitch.current close true)).

(** [quit()] *)
Definition quit : Prog unit :=
  log verbose "quit()" ;;
  b <- read ;;
  if State_eqb (StateSwitch.current_ (state b)) close then
    let e :=
      if StateSwitch.inprocess (state b) then
        mkError "quit() fail: on a browser with state.current():`close` and inprocess():`true` ?"
      else
        mkError "quit() fail: on a already quit-ed browser" in
    log warn (message e) ;;
    Throw e
  else
    modify (StateSwitch.target close) ;;
    modify (StateSwitch.current close false) ;;
    quit_body ;;
    Ret tt.

Definition TIMEOUT : N := 60 * 1000.

(** The promise built for one attempt of [open()]: [driver.get(openUrl)]
    against a timer of [TIMEOUT] milliseconds. *)
Definition open_attempt (openUrl : string) (ttl : nat) : Prog unit :=
  AwaitRace (DriverGet openUrl) TIMEOUT (fun o =>
    match o with
    | None =>
        Throw (mkError ("timeout after " ++ string_of_Z (Z.of_N (TIMEOUT / 1000))
                        ++ " seconds" ++ "at ttl:" ++ string_of_Z (Z.of_nat ttl)))
    | Some (Ok _) => log verbose "open(%s) end at ttl:%d"
    | Some (Err e) => Throw e
    end).

(** [while (ttl--) { ... }] of [open()], and what follows the loop. *)
Fixpoint open_loop (openUrl : string) (ttl : nat) : Prog unit :=
  match ttl with
  | S ttl' =>
      log verbose "open() begin for ttl:%d" ;;
      done <- try_catch
                (open_attempt openUrl ttl' ;;
                 Ret true)
                (fun e =>
                   log error "open() exception: %s" ;;
                   await DriverClose ;;
                   await DriverQuit ;;
                   await DriverInit ;;
                   log verbose "open() driver.{close,quit,init}() done" ;;
                   Ret false) ;;
      if done : bool then Ret tt else open_loop openUrl ttl'
  | O =>
      await DriverClose ;;
      await DriverQuit ;;
      Throw (mkError "open fail because ttl expired")
  end.

(** [open(url?)]: [None] is an omitted argument. *)
Definition open (url : option string) : Prog unit :=
  log verbose "open(%s)" ;;
  openUrl <-
    match url with
    | Some (String a u) => Ret (String a u)
    | _ =>
        hostname <- Hostname (fun h => Ret h) ;;
        match hostname with
        | Some (String a h) => Ret ("https://" ++ String a h)
        | _ => Throw (mkError "hostname unknown")
        end
    end ;;
  open_loop openUrl 3.

Definition loadCookie : Prog unit := await CookieLoad.

(** [jumpUrl] is used to open in browser for we can set cookies. *)
Definition jumpUrl (hostname : option string) : string :=
  "https://" ++ match hostname with Some h => h | None => "null" end
  ++ "/zh_CN/htmledition/v2/images/webwxgeticon.jpg".

(** The navigation sequence of the [try] block of [init()]. *)
Definition init_navigate (url : string) : Prog unit :=
  await DriverInit ;;
  log verbose "init() driver.init() done" ;;
  open (Some url) ;;
  try_catch loadCookie
    (fun e => log verbose "browser.loadSession(%s) exception: %s") ;;
  open None.

(** The end of the [try] block of [init()]: when open url, there could
    happen a [quit()] call; if the target state is [close] by now, clean
    up. *)
Definition init_commit : Prog unit :=
  b <- read ;;
  if negb (State_eqb (StateSwitch.target_ (state b)) open_) then
    Throw (mkError "init() open() done, but state.target() is set to close after that. has to quit().")
  else
    modify (StateSwitch.current open_ true) ;;
    Ret tt.

Definition init_try (url : string) : Prog unit :=
  init_navigate url ;;
  init_commit.

(** [catch (err) { ...; await this.quit(); throw err }] of [init()]. *)
Definition init_catch (err : Error) : Prog unit :=
  log error "init() exception: %s" ;;
  quit ;;
  Throw err.

(** [init()] *)
Definition init : Prog unit :=
  log verbose "init()" ;;
  b <- read ;;
  if State_eqb (StateSwitch.current_ (state b)) open_ then
    let e :=
      if StateSwitch.inprocess (state b) then
        mkError "init() fail: current state is `open`-`ing`"
      else
        mkError "init() fail: current state is `open`" in
    log error (message e) ;;
    Throw e
  else
    modify (StateSwitch.target open_) ;;
    modify (StateSwitch.current open_ false) ;;
    hostname <- Hostname (fun h => Ret h) ;;
    try_catch (init_try (jumpUrl hostname)) init_catch.

(** [restart()] *)
Definition restart : Prog unit :=
  log verbose "restart()" ;;
  quit ;;
  b <- read ;;
  if State_eqb (StateSwitch.current_ (state b)) open_
     && StateSwitch.inprocess (state b)
  then log warn "restart() found state.current() === open and inprocess() after quit()!"
  else init.

Definition double_quote : string := String (ascii_of_nat 34) EmptyString.

(** [execute(script, ...args)] *)
Definition execute (script : string) (args : list Value) : Prog Value :=
  log silly ("Browser.execute(" ++ double_quote ++ "%s" ++ double_quote ++ ")") ;;
  d <- dead VUndefined ;;
  if d : bool then
    let e := mkError "Browser.execute() browser dead" in
    log warn "execute() this.dead() %s" ;;
    Throw e
  else
    try_catch (await (DriverExecuteScript script args))
      (fun e =>
         log warn "execute() exception: %s, %s" ;;
         log silly "execute() script: %s" ;;
         Throw e).

(** [hostname()] of [Browser]: the host name of the page the browser is on. *)
Definition hostname : Prog Value :=
  log verbose "hostname()" ;;
  domain <- execute "return location.hostname" [] ;;
  log silly "hostname() got %s" ;;
  Ret domain.

(** [readyLive()] *)
Definition readyLive : Prog bool :=
  log verbose "readyLive()" ;;
  d <- dead VUndefined ;;
  if d : bool then
    log silly "readyLive() dead() is true" ;;
    Ret false
  else
    two <- try_catch (execute "return 1+1" [])
             (fun e => Ret (VStr (message e))) ;;
    if strict_eq_2 two then Ret true
    else
      let errMsg := "found dead browser coz 1+1 = " ++ to_string two ++ " (not 2)" in
      log warn "readyLive() %s" ;;
      dead (VStr errMsg) ;;
      Ret false.

(** ** Interleaved semantics *)

(** A call in flight, parked at a suspension point (or finished).  Between
    two suspension points a JavaScript function runs without interruption. *)
Inductive Thread (A : Type) : Type :=
| Finished (r : Result A)
| Awaiting (c : Call) (k : Result (Resp c) -> Prog A)
| Racing (c : Call) (ms : N) (k : option (Result (Resp c)) -> Prog A)
| Sleeping (ms : N) (p : Prog A).
Arguments Finished {A} r.
Arguments Awaiting {A} c k.
Arguments Racing {A} c ms k.
Arguments Sleeping {A} ms p.

(** Run [p] up to its next suspension point. *)
Fixpoint start {A : Type} (env : Env) (p : Prog A) (w : World) : World * Thread A :=
  match p with
  | Ret a => (w, Finished (Ok a))
  | Throw e => (w, Finished (Err e))
  | Read k => start env (k (browser w)) w
  | Modify f q => start env q (set_state f w)
  | Log l m q => start env q (add_log l m w)
  | Emit n a q => start env q (add_event (EvEmit n a) w)
  | Hostname k =>
      let w' := add_event EvHostname w in
      start env (k (cookie_hostname env (io w'))) w'
  | Kill pid k =>
      let w' := add_event (EvKill pid) w in
      start env (k (process_kill env (io w') pid)) w'
  | Await c k => (add_event (EvCall c) w, Awaiting c k)
  | AwaitRace c ms k => (add_event (EvCall c) w, Racing c ms k)
  | Sleep ms q => (w, Sleeping ms q)
  end.

(** The event loop picks a parked call up again.  A call waiting for a
    promise that never settles stays parked. *)
Definition resume {A : Type} (env : Env) (t : Thread A) (w : World) : World * Thread A :=
  match t with
  | Finished r => (w, Finished r)
  | Awaiting c k =>
      match latency env (io w) c with
      | Some _ => start env (k (respond env (io w) c)) w
      | None => (w, Awaiting c k)
      end
  | Racing c ms k =>
      match latency env (io w) c with
      | Some t =>
          if (t <? ms)%N then start env (k (Some (respond env (io w) c))) w
          else start env (k None) (add_event (EvTimeout ms) w)
      | None => start env (k None) (add_event (EvTimeout ms) w)
      end
  | Sleeping ms q => start env q (add_event (EvSleep ms) w)
  end.

Record Pool : Type := mkPool {
  world : World;
  threads : list (Thread unit)
}.

(** What the host and the event loop can do: call [init()], call [quit()],
    or resume the call number [tid]. *)
Inductive Action : Type :=
| CallInit
| CallQuit
| Resume (tid : nat).

Fixpoint replace_nth {A : Type} (i : nat) (x : A) (l : list A) : list A :=
  match l, i with
  | [], _ => []
  | _ :: l', O => x :: l'
  | y :: l', S i' => y :: replace_nth i' x l'
  end.

Definition spawn (env : Env) (p : Prog unit) (P : Pool) : Pool :=
  let (w, t) := start env p (world P) in
  mkPool w (threads P ++ [t]).

Definition step (env : Env) (a : Action) (P : Pool) : Pool :=
  match a with
  | CallInit => spawn env init P
  | CallQuit => spawn env quit P
  | Resume tid =>
      match nth_error (threads P) tid with
      | Some t =>
          let (w, t') := resume env t (world P) in
          mkPool w (replace_nth tid t' (threads P))
      | None => P
      end
  end.

Definition exec (env : Env) (sched : list Action) (P : Pool) : Pool :=
  fold_left (fun P a => step env a P) sched P.

(** One call alone in the pool, resumed until it finishes, at most [fuel]
    times. *)
Fixpoint drive {A : Type} (fuel : nat) (env : Env) (t : Thread A) (w : World)
  : World * Completion A :=
  match t with
  | Finished (Ok a) => (w, Returned a)
  | Finished (Err e) => (w, Thrown e)
  | _ =>
      match fuel with
      | O => (w, Hung)
      | S fuel' =>
          match t with
          | Awaiting c _ =>
              match latency env (io w) c with
              | Some _ => let (w', t') := resume env t w in drive fuel' env t' w'
              | None => (w, Hung)
              end
          | _ => let (w', t') := resume env t w in drive fuel' env t' w'
          end
      end
  end.

(** ** Worlds and environments used as concrete inputs *)

(** A freshly constructed [Browser]: [new StateSwitch('Browser', 'close')]. *)
Definition new_Browser (hd : string) : Browser :=
  mkBrowser hd "" (StateSwitch.init close) true.

Definition initial (hd : string) : World := mkWorld (new_Browser hd) [] [].

(** A session that [init()] has brought up. *)
Definition stable_open (hd : string) : World :=
  mkWorld (mkBrowser hd "" (StateSwitch.mk open_ open_ false) true) [] [].

(** A session in the middle of [init()]. *)
Definition opening (hd : string) : World :=
  mkWorld (mkBrowser hd "" (StateSwitch.mk open_ open_ true) true) [] [].

Definition answer (get : Result unit) (two : Result Value) (children : list Child)
  (c : Call) : Result (Resp c) :=
  match c with
  | DriverExecuteScript _ _ => two
  | PsTree => Ok children
  | DriverGet _ => get
  | DriverInit | DriverClose | DriverQuit | CookieLoad => Ok tt
  end.

(** Every collaborator answers at once and successfully; the probe script
    evaluates to [two]; the process host lists [children]. *)
Definition env_with (get : Result unit) (two : Result Value) (children : list Child) : Env :=
  mkEnv (fun _ => answer get two children)
        (fun _ _ => Some 0%N)
        (fun _ => Some "wx.qq.com")
        (fun _ _ => Ok tt).

Definition env_ok : Env := env_with (Ok tt) (Ok (VNum 2)) [].

(** [driver.get] never settles. *)
Definition env_get_hangs : Env :=
  mkEnv (fun _ => answer (Ok tt) (Ok (VNum 2)) [])
        (fun _ c => match c with DriverGet _ => None | _ => Some 0%N end)
        (fun _ => Some "wx.qq.com")
        (fun _ _ => Ok tt).

(** [driver.get] is rejected with [x]. *)
Definition env_get_rejects (x : Error) : Env := env_with (Err x) (Ok (VNum 2)) [].

(** Two browser processes survive everything, signals included;
    [process.kill] fails for pid 7.  The driver companion process is listed
    too. *)
Definition orphans : list Child :=
  [ mkChild 4242 (Some "/opt/google/chrome/chrome") None;
    mkChild 7 None (Some "chromium-browser");
    mkChild 9 (Some "chromedriver") None ].
Definition env_orphans : Env :=
  mkEnv (fun _ => answer (Ok tt) (Ok (VNum 2)) orphans)
        (fun _ _ => Some 0%N)
        (fun _ => Some "wx.qq.com")
        (fun _ pid => if pid =? 7 then Err (mkError "ESRCH") else Ok tt).

(** ** Hosts *)

(** A host that reports a death several times in a row, once per reason. *)
Fixpoint dead_each (reasons : list Value) : Prog (list bool) :=
  match reasons with
  | [] => Ret []
  | reason :: rest =>
      d <- dead reason ;;
      ds <- dead_each rest ;;
      Ret (d :: ds)
  end.

(** The [dead] notifications among the events of a run, with their reasons. *)
Definition dead_events (l : list Event) : list Value :=
  flat_map (fun ev =>
              match ev with
              | EvEmit name arg => if String.eqb name "dead" then [arg] else []
              | _ => []
              end) l.

(** A host that probes the session and then asks whether it is dead. *)
Definition probe_then_check : Prog (bool * bool) :=
  live <- readyLive ;;
  d <- dead VUndefined ;;
  Ret (live, d).

(** The round trip of [readyLive()]. *)
Definition probe : Call := DriverExecuteScript "return 1+1" [].

(** ** Auxiliary notions used in the statements *)

(** A program that leaves the state switch alone. *)
Inductive NoModify {A : Type} : Prog A -> Prop :=
| NM_Ret a : NoModify (Ret a)
| NM_Throw e : NoModify (Throw e)
| NM_Read k : (forall b, NoModify (k b)) -> NoModify (Read k)
| NM_Log l m p : NoModify p -> NoModify (Log l m p)
| NM_Emit n a p : NoModify p -> NoModify (Emit n a p)
| NM_Hostname k : (forall h, NoModify (k h)) -> NoModify (Hostname k)
| NM_Kill pid k : (forall r, NoModify (k r)) -> NoModify (Kill pid k)
| NM_Await c k : (forall r, NoModify (k r)) -> NoModify (Await c k)
| NM_AwaitRace c ms k : (forall r, NoModify (k r)) -> NoModify (AwaitRace c ms k)
| NM_Sleep ms p : NoModify p -> NoModify (Sleep ms p).


(** An environment all of whose promises settle. *)
Definition settles (env : Env) : Prop :=
  forall h c, latency env h c <> None.

(** The session is dead, respectively open, for the state machine. *)
Definition dead_state (w : World) : Prop :=
  StateSwitch.target_ (state (browser w)) = close \/
  StateSwitch.current_ (state (browser w)) = close.

Definition open_state (w : World) : Prop :=
  StateSwitch.target_ (state (browser w)) = open_ /\
  StateSwitch.current_ (state (browser w)) = open_.

(** What [readyLive()] finds in [two]: the value of the script, or the
    message of the error the probe was rejected with. *)
Definition observed (r : Result Value) : Value :=
  match r with
  | Ok v => v
  | Err e => VStr (message e)
  end.

(** Two worlds that differ at most in what has been logged. *)
Definition same_view (w v : World) : Prop :=
  browser w = browser v /\ io w = io v.

(** How many of the signals sent to [pids], starting after the events [h],
    are refused by the process host. *)
Fixpoint kill_failures (env : Env) (h : list Event) (pids : list Z) : nat :=
  match pids with
  | [] => O
  | pid :: rest =>
      let h' := (h ++ [EvKill pid])%list in
      ((match process_kill env h' pid with Ok _ => 0 | Err _ => 1 end)
       + kill_failures env h' rest)%nat
  end.

Definition kill_warning : Level * string :=
  (warn, "clean(kill=true) process.kill(%d, SIGKILL) exception: %s").

(** The events of a polling phase in which every attempt fails: attempts
    [i], [i+1], ... with the back-off delays between them. *)
Fixpoint exhausted_trace (remaining : nat) (backoff : N) (i : N) : list Event :=
  EvCall PsTree ::
  match remaining with
  | O => []
  | S remaining' => EvSleep (i * backoff) :: exhausted_trace remaining' backoff (i + 1)
  end.

Definition polling_event (ev : Event) : Prop :=
  ev = EvCall PsTree \/ exists ms, ev = EvSleep ms.

(** The number of [driver.get] calls among the events of a run. *)
Definition navigations (l : list Event) : nat :=
  List.length (filter (fun ev => match ev with
                                 | EvCall (DriverGet _) => true
                                 | _ => false
                                 end) l).

(** The collaborator calls among the events of a run, timers left out. *)
Definition calls (l : list Event) : list Event :=
  filter (fun ev => match ev with EvCall _ => true | _ => false end) l.

(** A program that issues at most [n] navigations. *)
Definition at_most_gets {A : Type} (n : nat) (p : Prog A) : Prop :=
  forall env w, (navigations (io (fst (run env p w))) <= navigations (io w) + n)%nat.

(** The driver always carries out [close()], [quit()] and [init()]. *)
Definition resets_succeed (env : Env) : Prop :=
  forall h,
    (latency env h DriverClose <> None /\ respond env h DriverClose = Ok tt) /\
    (latency env h DriverQuit <> None /\ respond env h DriverQuit = Ok tt) /\
    (latency env h DriverInit <> None /\ respond env h DriverInit = Ok tt).

(** Every [driver.get(url)] is rejected, or does not settle before the
    timer of [open()] fires. *)
Definition get_fails (env : Env) (url : string) : Prop :=
  forall h,
    match latency env h (DriverGet url) with
    | Some t => (60000 <= t)%N \/ exists e, respond env h (DriverGet url) = Err e
    | None => True
    end.

(** The events of [ttl] rounds of [open()] none of which gets an answer in
    time, and of the final [close()] and [quit()]. *)
Fixpoint hanging_trace (url : string) (ttl : nat) : list Event :=
  match ttl with
  | O => [EvCall DriverClose; EvCall DriverQuit]
  | S ttl' =>
      EvCall (DriverGet url) :: EvTimeout 60000 ::
      EvCall DriverClose :: EvCall DriverQuit :: EvCall DriverInit ::
      hanging_trace url ttl'
  end.

(** The schedule in which a [quit()] comes in while [init()] waits for its
    last navigation: [init()] is called and resumed three times (driver
    started, first page loaded, cookies loaded); [quit()] is called and
    resumed to its end (driver closed, driver quit, no process left); then
    the navigation of [init()] settles. *)
Definition quit_during_init : list Action :=
  [CallInit; Resume 0; Resume 0; Resume 0;
   CallQuit; Resume 1; Resume 1; Resume 1;
   Resume 0].

(** The schedule in which an [init()] comes in while a [quit()] is under
    way: a first [init()] runs to its end; [quit()] is called; [init()] is
    called again; [quit()] is resumed to its end. *)
Definition init_during_quit : list Action :=
  [CallInit; Resume 0; Resume 0; Resume 0; Resume 0;
   CallQuit; CallInit; Resume 1; Resume 1; Resume 1].

(** ** Further notions used in the statements *)

(** The methods a host calls on the controller. *)
Inductive Method : Type := MInit | MQuit | MRestart.

Definition method (m : Method) : Prog unit :=
  match m with
  | MInit => init
  | MQuit => quit
  | MRestart => restart
  end.

(** A host that calls methods one after the other, waits for each and goes
    on whether the call was rejected or not. *)
Fixpoint host_calls (ms : list Method) : Prog unit :=
  match ms with
  | [] => Ret tt
  | m :: rest =>
      try_catch (method m) (fun _ => Ret tt) ;;
      host_calls rest
  end.

(** The switch is at rest: open or closed, nothing in process. *)
Definition at_rest (sw : StateSwitch.t) : Prop :=
  sw = StateSwitch.mk open_ open_ false \/ sw = StateSwitch.mk close close false.

(** The head names [getBrowserPidList()] knows, with the test each selects. *)
Definition head_test (hd : string) : option (string -> bool) :=
  if String.eqb hd "phantomjs" then Some test_phantomjs
  else if String.eqb hd "chrome" || String.eqb hd "chrome-headless" then Some test_chrome
  else None.

(** The time spent in back-off delays, and the numbers of enumerations and
    of signals, among the events of a run. *)
Definition total_sleep (l : list Event) : N :=
  fold_right (fun ev acc => match ev with EvSleep ms => (ms + acc)%N | _ => acc end) 0%N l.

Definition polls (l : list Event) : nat :=
  List.length (filter (fun ev => match ev with EvCall PsTree => true | _ => false end) l).

Definition kills (l : list Event) : list Z :=
  flat_map (fun ev => match ev with EvKill pid => [pid] | _ => [] end) l.

(** The delays [retryAttempt] can add up to, from attempt [i] on. *)
Fixpoint sleep_budget (remaining : nat) (backoff : N) (i : N) : N :=
  match remaining with
  | O => 0%N
  | S remaining' => (i * backoff + sleep_budget remaining' backoff (i + 1))%N
  end.

(** [driver.get(url)] fails, respectively gets through in time, after the
    events [h]. *)
Definition get_fails_at (env : Env) (url : string) (h : list Event) : Prop :=
  match latency env h (DriverGet url) with
  | Some t => (60000 <= t)%N \/ exists e, respond env h (DriverGet url) = Err e
  | None => True
  end.

Definition get_succeeds_at (env : Env) (url : string) (h : list Event) : Prop :=
  exists t, latency env h (DriverGet url) = Some t /\ (t < 60000)%N /\
            respond env h (DriverGet url) = Ok tt.

(** A string without the letter c, in either case. *)
Fixpoint no_c (s : string) : bool :=
  match s with
  | EmptyString => true
  | String a s' => negb (Ascii.eqb (lower a) "c"%char) && no_c s'
  end.

(** Everything is carried out, except that the cookies cannot be loaded. *)
Definition answer_flaky (c : Call) : Result (Resp c) :=
  match c with
  | DriverExecuteScript _ _ => Ok (VStr "wx.qq.com")
  | PsTree => Ok []
  | CookieLoad => Err (mkError "ENOENT")
  | DriverGet _ | DriverInit | DriverClose | DriverQuit => Ok tt
  end.

(** Every collaborator answers at once; the page is on [wx.qq.com]. *)
Definition env_no_cookies : Env :=
  mkEnv (fun _ => answer_flaky)
        (fun _ _ => Some 0%N)
        (fun _ => Some "wx.qq.com")
        (fun _ _ => Ok tt).

(** The first two navigations never settle, the third one does. *)
Definition env_third_time : Env :=
  mkEnv (fun _ => answer_flaky)
        (fun h c => match c with
                    | DriverGet _ => if (navigations h <=? 2)%nat then None else Some 5%N
                    | _ => Some 0%N
                    end)
        (fun _ => Some "wx.qq.com")
        (fun _ _ => Ok tt).

(** The driver refuses to close, to navigate and to run scripts, and the
    process tree cannot be listed. *)
Definition answer_stuck (c : Call) : Result (Resp c) :=
  match c with
  | DriverExecuteScript _ _ => Err (mkError "no such session")
  | PsTree => Err (mkError "ps failed")
  | DriverGet _ => Err (mkError "net::ERR_CONNECTION_RESET")
  | DriverClose => Err (mkError "ECONNREFUSED")
  | DriverInit | DriverQuit | CookieLoad => Ok tt
  end.

(** The same, with a cookie collaborator that knows no host. *)
Definition env_stuck : Env :=
  mkEnv (fun _ => answer_stuck)
        (fun _ _ => Some 0%N)
        (fun _ => None)
        (fun _ _ => Ok tt).

(** A session whose driver reference has been lost. *)
Definition driverless (hd : string) : World :=
  mkWorld (mkBrowser hd "" (StateSwitch.mk open_ open_ false) false) [] [].

(** ** Notions used for calls in flight *)











(** * Properties *)

(** ** The semantics of the control operators *)

Lemma State_eqb_eq (a b : State) : State_eqb a b = true <-> a = b.
Proof. destruct a, b; simpl; split; congruence. Qed.

Lemma State_eqb_refl (a : State) : State_eqb a a = true.
Proof. now destruct a. Qed.

Lemma run_bind {A B : Type} (env : Env) (p : Prog A) (f : A -> Prog B) (w : World) :
  run env (bind p f) w =
  match run env p w with
  | (w', Returned a) => run env (f a) w'
  | (w', Thrown e) => (w', Thrown e)
  | (w', Hung) => (w', Hung)
  end.
Proof.
  revert w; induction p; intros w; simpl; auto.
  - destruct (latency env _ c); auto.
  - destruct (latency env _ c) as [t|]; auto.
    destruct (t <? ms)%N; auto.
Qed.

Lemma run_try_catch {A : Type} (env : Env) (p : Prog A) (h : Error -> Prog A) (w : World) :
  run env (try_catch p h) w =
  match run env p w with
  | (w', Thrown e) => run env (h e) w'
  | r => r
  end.
Proof.
  revert w; induction p; intros w; simpl; auto.
  - destruct (latency env _ c); auto.
  - destruct (latency env _ c) as [t|]; auto.
    destruct (t <? ms)%N; auto.
Qed.

Lemma run_try_finally {A : Type} (env : Env) (p : Prog A) (f : Prog unit) (w : World) :
  run env (try_finally p f) w =
  match run env p w with
  | (w', Returned a) => run env (bind f (fun _ => Ret a)) w'
  | (w', Thrown e) => run env (bind f (fun _ => Throw e)) w'
  | (w', Hung) => (w', Hung)
  end.
Proof.
  revert w; induction p; intros w; simpl; auto.
  - destruct (latency env _ c); auto.
  - destruct (latency env _ c) as [t|]; auto.
    destruct (t <? ms)%N; auto.
Qed.

Lemma run_log (env : Env) (l : Level) (m : string) (w : World) :
  run env (log l m) w = (add_log l m w, Returned tt).
Proof. reflexivity. Qed.

(** Evaluate the primitive steps at the head of a run, leaving the methods
    folded. *)
Ltac run_prims :=
  cbn [run bind try_catch try_finally read log modify emit sleep
       add_log add_event set_state browser io logs fst snd State_eqb message].

(** ** Programs that leave the state switch alone *)

Create HintDb frame.
#[local] Hint Constructors NoModify : frame.

Lemma NoModify_bind {A B : Type} (p : Prog A) (f : A -> Prog B) :
  NoModify p -> (forall a, NoModify (f a)) -> NoModify (bind p f).
Proof. induction 1; intros Hf; simpl; auto with frame. Qed.

Lemma NoModify_try_catch {A : Type} (p : Prog A) (h : Error -> Prog A) :
  NoModify p -> (forall e, NoModify (h e)) -> NoModify (try_catch p h).
Proof. induction 1; intros Hh; simpl; auto with frame. Qed.

#[local] Hint Resolve NoModify_bind NoModify_try_catch : frame.

Lemma run_NoModify {A : Type} (env : Env) (p : Prog A) :
  NoModify p -> forall w, browser (fst (run env p w)) = browser w.
Proof.
  induction 1; intros w; simpl; auto.
  - rewrite IHNoModify; reflexivity.
  - rewrite IHNoModify; reflexivity.
  - rewrite H0; reflexivity.
  - rewrite H0; reflexivity.
  - destruct (latency env _ c); simpl; auto. rewrite H0; reflexivity.
  - destruct (latency env _ c) as [t|]; [destruct (t <? ms)%N|]; rewrite H0; reflexivity.
  - rewrite IHNoModify; reflexivity.
Qed.

Ltac frame :=
  repeat first
    [ progress intros
    | assumption
    | solve [auto with frame nocore]
    | apply NoModify_bind
    | apply NoModify_try_catch
    | match goal with
      | |- NoModify (if ?c then _ else _) => destruct c
      | |- NoModify (match ?x with _ => _ end) => destruct x
      end
    | solve [auto with frame]
    | constructor ].

Lemma NoModify_dead (reason : Value) : NoModify (dead reason).
Proof. unfold dead, read, log, emit. frame. Qed.

Lemma NoModify_filter_children (f : string -> bool) (l : list Child) :
  NoModify (filter_children f l).
Proof. induction l; simpl; unfold log; frame. Qed.

Lemma NoModify_getBrowserPidList : NoModify getBrowserPidList.
Proof.
  unfold getBrowserPidList, read, log, await.
  pose proof NoModify_filter_children. frame.
Qed.

Lemma NoModify_kill_each (l : list Z) : NoModify (kill_each l).
Proof. induction l; simpl; unfold log; frame. Qed.

Lemma NoModify_retryAttempt {A : Type} (n : nat) (backoff : N) (fn : N -> Prog A) :
  (forall i, NoModify (fn i)) -> forall i, NoModify (retryAttempt n backoff i fn).
Proof.
  intros Hfn; induction n; intros i; simpl; unfold sleep; frame.
Qed.

Lemma NoModify_clean_poll (i : N) : NoModify (clean_poll i).
Proof. unfold clean_poll, log. pose proof NoModify_getBrowserPidList. frame. Qed.

Lemma NoModify_clean (kill : bool) : NoModify (clean kill).
Proof.
  unfold clean, clean_kill, log, retryPromise.
  pose proof NoModify_getBrowserPidList. pose proof NoModify_kill_each.
  pose proof (NoModify_retryAttempt (clean_max - 1) clean_backoff _ NoModify_clean_poll).
  frame.
Qed.

Lemma NoModify_open_loop (u : string) (ttl : nat) : NoModify (open_loop u ttl).
Proof.
  induction ttl; simpl; unfold open_attempt, log, await; frame.
Qed.

Lemma NoModify_open (url : option string) : NoModify (open url).
Proof.
  unfold open, log. pose proof NoModify_open_loop. frame.
Qed.

Lemma NoModify_execute (script : string) (args : list Value) :
  NoModify (execute script args).
Proof.
  unfold execute, log, await. pose proof NoModify_dead. frame.
Qed.

Lemma NoModify_readyLive : NoModify readyLive.
Proof.
  unfold readyLive, log. pose proof NoModify_dead. pose proof NoModify_execute. frame.
Qed.

(** ** Environments whose promises all settle *)

Lemma run_settles {A : Type} (env : Env) (p : Prog A) :
  settles env -> forall w, snd (run env p w) <> Hung.
Proof.
  intros Hs; induction p; intros w; simpl; auto; try discriminate.
  - destruct (latency env _ c) eqn:E; auto. now apply Hs in E.
  - destruct (latency env _ c) as [t|] eqn:E; auto.
    destruct (t <? ms)%N; auto.
Qed.

Lemma settles_env_with get two children : settles (env_with get two children).
Proof. intros h c; discriminate. Qed.


(** ** [dead()] *)

(** C10: the dead-state check never changes the session state: whatever the
    reason passed and whatever the starting state, [target], [current] and
    [inProcess] are the same before and after; besides the boolean it
    returns, all it does to the outside is emit at most one [dead] event. *)
Theorem dead_leaves_state (env : Env) (forceReason : Value) (w : World) :
  StateSwitch.target_ (state (browser (fst (run env (dead forceReason) w))))
    = StateSwitch.target_ (state (browser w)) /\
  StateSwitch.current_ (state (browser (fst (run env (dead forceReason) w))))
    = StateSwitch.current_ (state (browser w)) /\
  StateSwitch.inProcess (state (browser (fst (run env (dead forceReason) w))))
    = StateSwitch.inProcess (state (browser w)) /\
  (exists d, snd (run env (dead forceReason) w) = Returned d) /\
  (io (fst (run env (dead forceReason) w)) = io w \/
   exists msg, io (fst (run env (dead forceReason) w)) = (io w ++ [EvEmit "dead" msg])%list).
Proof.
  rewrite (run_NoModify env (NoModify_dead forceReason) w).
  repeat split.
  - unfold dead, read, log, emit; simpl.
    repeat match goal with
           | |- context [if ?c then _ else _] => destruct c; simpl
           end; eauto.
  - unfold dead, read, log, emit; simpl.
    repeat match goal with
           | |- context [if ?c then _ else _] => destruct c; simpl
           end; eauto.
Qed.

(** ** [init()] on an open session *)

(** C8: [init()] called while [current] is [open], be it stable or still
    opening, fails with the corresponding error, makes no collaborator call
    and leaves the session state as it was. *)
Theorem init_already_open (env : Env) (w : World) :
  StateSwitch.current_ (state (browser w)) = open_ ->
  exists w',
    run env init w =
      (w', Thrown (mkError (if StateSwitch.inprocess (state (browser w))
                            then "init() fail: current state is `open`-`ing`"
                            else "init() fail: current state is `open`"))) /\
    browser w' = browser w /\
    io w' = io w.
Proof.
  intros Hc. unfold init. run_prims. rewrite Hc. run_prims.
  destruct (StateSwitch.inprocess (state (browser w))); run_prims; eauto.
Qed.

Lemma init_already_open_witness :
  StateSwitch.current_ (state (browser (opening "chrome"))) = open_ /\
  exists w',
    run env_ok init (opening "chrome") =
      (w', Thrown (mkError "init() fail: current state is `open`-`ing`")) /\
    browser w' = browser (opening "chrome") /\
    io w' = io (opening "chrome").
Proof.
  split; [reflexivity | apply (init_already_open env_ok (opening "chrome")); reflexivity].
Defined.

(** ** [quit()] *)

Lemma NoModify_quit_try : NoModify (quit_driver ;; quit_cleanup).
Proof.
  unfold quit_driver, quit_cleanup, log. pose proof NoModify_clean. frame.
Qed.

Lemma run_quit_body (env : Env) (w : World) :
  settles env ->
  exists w',
    run env quit_body w = (w', Returned tt) /\
    browser w' =
      mkBrowser (head (browser w)) (sessionFile (browser w))
                (StateSwitch.current close true (state (browser w)))
                (driver (browser w)).
Proof.
  intros Hs. unfold quit_body.
  rewrite run_try_finally, run_try_catch.
  pose proof (run_NoModify env NoModify_quit_try w) as Hb.
  pose proof (run_settles (quit_driver ;; quit_cleanup) Hs w) as Hh.
  destruct (run env (quit_driver ;; quit_cleanup) w) as [w1 [[]|e|]]; simpl in *.
  - eexists; split; [reflexivity|]. simpl. now rewrite Hb.
  - unfold quit_catch, log. simpl.
    destruct (crashRegex_test (message e)); simpl;
      (eexists; split; [reflexivity|]; simpl; now rewrite Hb).
  - congruence.
Qed.


Lemma run_quit_open (env : Env) (w : World) :
  settles env ->
  StateSwitch.current_ (state (browser w)) <> close ->
  exists w',
    run env quit w = (w', Returned tt) /\
    state (browser w') = StateSwitch.mk close close false.
Proof.
  intros Hs Hc. unfold quit. run_prims.
  destruct (StateSwitch.current_ (state (browser w))) eqn:E; [|congruence].
  run_prims. rewrite run_bind.
  match goal with
  | |- context [run env quit_body ?w0] => destruct (run_quit_body w0 Hs) as (w' & Hr & Hb)
  end.
  rewrite Hr. run_prims. eexists; split; [reflexivity|]. rewrite Hb. reflexivity.
Qed.


(** ** Liveness *)

Lemma run_dead_closed (env : Env) (forceReason : Value) (w : World) :
  dead_state w ->
  exists w', run env (dead forceReason) w = (w', Returned true) /\
             browser w' = browser w /\ io w' = io w.
Proof.
  intros Hd. unfold dead. run_prims.
  replace (State_eqb (StateSwitch.target_ (state (browser w))) close
           || State_eqb (StateSwitch.current_ (state (browser w))) close)
    with true.
  - run_prims. eauto.
  - destruct Hd as [-> | ->]; simpl; [reflexivity | now rewrite orb_true_r].
Qed.

Lemma run_dead_alive (env : Env) (w : World) :
  open_state w -> driver (browser w) = true ->
  run env (dead VUndefined) w = (w, Returned false).
Proof.
  intros [Ht Hc] Hd. unfold dead. run_prims. rewrite Ht, Hc, Hd. reflexivity.
Qed.

Lemma run_dead_reason (env : Env) (forceReason : Value) (w : World) :
  open_state w -> truthy forceReason = true ->
  exists w', run env (dead forceReason) w = (w', Returned true) /\
             browser w' = browser w /\
             io w' = (io w ++ if StateSwitch.stable (state (browser w))
                              then [EvEmit "dead" forceReason] else [])%list.
Proof.
  intros [Ht Hc] Hr. unfold dead. run_prims. rewrite Ht, Hc, Hr.
  unfold StateSwitch.stable. rewrite Ht, Hc. simpl.
  destruct (StateSwitch.inProcess (state (browser w))); simpl;
    (eexists; split; [reflexivity|]; split; [reflexivity|]; simpl);
    [now rewrite app_nil_r | reflexivity].
Qed.

Lemma run_dead_each_stable_open (env : Env) (reasons : list Value) :
  Forall (fun r => truthy r = true) reasons ->
  forall w,
    open_state w -> StateSwitch.stable (state (browser w)) = true ->
    exists w',
      run env (dead_each reasons) w = (w', Returned (map (fun _ => true) reasons)) /\
      browser w' = browser w /\
      io w' = (io w ++ map (EvEmit "dead") reasons)%list.
Proof.
  induction 1 as [|r rest Hr _ IH]; intros w Ho Hs; cbn [dead_each map].
  - exists w. run_prims. now rewrite app_nil_r.
  - rewrite run_bind.
    destruct (run_dead_reason env r Ho Hr) as (w1 & -> & Hb1 & Hio1).
    rewrite Hs in Hio1.
    destruct (IH w1) as (w2 & Hr2 & Hb2 & Hio2).
    + unfold open_state. now rewrite Hb1.
    + now rewrite Hb1.
    + rewrite run_bind, Hr2. run_prims. eexists; split; [reflexivity|].
      split; [congruence|]. rewrite Hio2, Hio1, <- app_assoc. reflexivity.
Qed.

(** C5, as the code has it: [dead()] on a session already in a dead state
    returns true and emits nothing; on a stable-open session every call
    that carries a reason emits exactly one [dead] notification and leaves
    the state as it was, so that a first report emits one notification and
    [n] reports in a row emit [n] of them. *)
Theorem dead_notifications (env : Env) (w : World) (reasons : list Value) :
  (dead_state w ->
   forall forceReason, exists w',
     run env (dead forceReason) w = (w', Returned true) /\ io w' = io w) /\
  (open_state w -> StateSwitch.stable (state (browser w)) = true ->
   Forall (fun r => truthy r = true) reasons ->
   exists w',
     run env (dead_each reasons) w = (w', Returned (map (fun _ => true) reasons)) /\
     browser w' = browser w /\
     dead_events (io w') = (dead_events (io w) ++ reasons)%list).
Proof.
  split.
  - intros Hd r. destruct (run_dead_closed env r Hd) as (w' & Hr & _ & Hio). eauto.
  - intros Ho Hs Hall.
    destruct (run_dead_each_stable_open env Hall Ho Hs) as (w' & Hr & Hb & Hio).
    exists w'. repeat split; auto.
    rewrite Hio. unfold dead_events. rewrite flat_map_app. f_equal.
    clear. induction reasons; simpl; congruence.
Qed.

Lemma dead_notifications_witness :
  (exists w',
     run env_ok (dead (VStr "gone")) (initial "chrome") = (w', Returned true) /\
     io w' = io (initial "chrome")) /\
  (exists w',
     run env_ok (dead_each [VStr "gone"]) (stable_open "chrome")
       = (w', Returned [true]) /\
     browser w' = browser (stable_open "chrome") /\
     dead_events (io w') = [VStr "gone"]).
Proof.
  split.
  - apply (proj1 (dead_notifications env_ok (initial "chrome") [])).
    left; reflexivity.
  - apply (proj2 (dead_notifications env_ok (stable_open "chrome") [VStr "gone"])).
    + split; reflexivity.
    + reflexivity.
    + repeat constructor.
Defined.

(** C5, as stated, fails: a stable-open session whose death is reported
    twice in a row, nothing else happening in between, emits two [dead]
    notifications. *)
Lemma dead_notified_twice :
  dead_events
    (io (fst (run env_ok (dead_each [VStr "no pong"; VStr "no pong"])
                 (stable_open "chrome"))))
    = [VStr "no pong"; VStr "no pong"] /\
  browser (fst (run env_ok (dead_each [VStr "no pong"; VStr "no pong"])
                   (stable_open "chrome")))
    = browser (stable_open "chrome").
Proof. split; vm_compute; reflexivity. Qed.

Lemma run_execute_alive (env : Env) (script : string) (args : list Value) (w : World) :
  open_state w -> driver (browser w) = true ->
  latency env (io w ++ [EvCall (DriverExecuteScript script args)])
          (DriverExecuteScript script args) <> None ->
  exists w',
    run env (try_catch (execute script args) (fun e => Ret (VStr (message e)))) w
      = (w', Returned
               (observed (respond env (io w ++ [EvCall (DriverExecuteScript script args)])
                                  (DriverExecuteScript script args)))) /\
    browser w' = browser w /\
    io w' = (io w ++ [EvCall (DriverExecuteScript script args)])%list.
Proof.
  intros Ho Hd Hl. unfold execute. run_prims.
  rewrite run_try_catch, run_bind, run_dead_alive by assumption.
  rewrite run_try_catch. unfold await. cbn [run add_event io add_log].
  destruct (latency env _ _); [|congruence].
  destruct (respond env _ _); run_prims; eauto.
Qed.

(** C6, as the code has it: on a session that the state machine holds for
    dead, [readyLive()] returns false without a probe; on a live session
    whose probe settles with anything but 2, it returns false, reports the
    death through [dead(errMsg)], which notifies the host with one [dead]
    event when the session is stable, and leaves the state as it was, so
    that a later dead-state check still answers false.  The reason handed
    to the host is the text built from the value found, for every value
    whose text is modelled. *)
Theorem readyLive_probe (env : Env) (w : World) :
  (dead_state w ->
   exists w', run env readyLive w = (w', Returned false) /\ io w' = io w) /\
  (open_state w -> driver (browser w) = true ->
   latency env (io w ++ [EvCall probe]) probe <> None ->
   strict_eq_2 (observed (respond env (io w ++ [EvCall probe]) probe)) = false ->
   exists w' errMsg,
     run env readyLive w = (w', Returned false) /\
     browser w' = browser w /\
     io w' = (io w ++ [EvCall probe]
              ++ if StateSwitch.stable (state (browser w))
                 then [EvEmit "dead" (VStr errMsg)]
                 else [])%list /\
     (exact_text (observed (respond env (io w ++ [EvCall probe]) probe)) ->
      errMsg = "found dead browser coz 1+1 = "
               ++ to_string (observed (respond env (io w ++ [EvCall probe]) probe))
               ++ " (not 2)") /\
     (forall env', snd (run env' (dead VUndefined) w') = Returned false)).
Proof.
  split.
  - intros Hd. unfold readyLive. run_prims. rewrite run_bind.
    destruct (run_dead_closed env VUndefined (w := add_log verbose "readyLive()" w) Hd)
      as (w1 & -> & _ & Hio).
    run_prims. eauto.
  - intros Ho Hd Hl H2. unfold readyLive. run_prims.
    rewrite run_bind, run_dead_alive by assumption.
    rewrite run_bind.
    destruct (run_execute_alive env "return 1+1" []
                (w := add_log verbose "readyLive()" w) Ho Hd Hl)
      as (w1 & -> & Hb1 & Hio1).
    cbn [io add_log] in *. fold probe in *. rewrite H2. run_prims.
    rewrite run_bind.
    match goal with
    | |- context [dead (VStr ?m)] =>
        destruct (run_dead_reason env (VStr m) (w := add_log warn "readyLive() %s" w1))
          as (w2 & -> & Hb2 & Hio2)
    end.
    + unfold open_state. cbn [browser add_log]. now rewrite Hb1.
    + reflexivity.
    + run_prims. cbn [browser add_log io] in *.
      eexists; eexists; split; [reflexivity|]. split; [congruence|]. split; [|split].
      * rewrite Hio2, Hio1, Hb1, <- app_assoc. reflexivity.
      * intros _. reflexivity.
      * intros env'. rewrite run_dead_alive; [reflexivity| |congruence].
        unfold open_state. rewrite Hb2, Hb1. exact Ho.
Qed.

Lemma readyLive_probe_witness :
  (exists w',
     run env_ok readyLive (initial "chrome") = (w', Returned false) /\
     io w' = io (initial "chrome")) /\
  (exists w' errMsg,
     run (env_with (Ok tt) (Ok (VNum 3)) []) readyLive (stable_open "chrome")
       = (w', Returned false) /\
     browser w' = browser (stable_open "chrome") /\
     io w' = [EvCall probe; EvEmit "dead" (VStr errMsg)] /\
     (exact_text (VNum 3) -> errMsg = "found dead browser coz 1+1 = 3 (not 2)") /\
     (forall env', snd (run env' (dead VUndefined) w') = Returned false)).
Proof.
  split.
  - apply (proj1 (readyLive_probe env_ok (initial "chrome"))).
    left; reflexivity.
  - apply (proj2 (readyLive_probe (env_with (Ok tt) (Ok (VNum 3)) [])
                                  (stable_open "chrome"))).
    + split; reflexivity.
    + reflexivity.
    + discriminate.
    + reflexivity.
Defined.

(** C6, as stated, fails: on a stable-open session whose probe answers 3,
    [readyLive()] returns false and the dead-state check that follows
    answers false as well. *)
Lemma readyLive_then_not_dead :
  snd (run (env_with (Ok tt) (Ok (VNum 3)) []) probe_then_check (stable_open "chrome"))
    = Returned (false, false).
Proof. vm_compute; reflexivity. Qed.

(** ** Runs do not depend on what has been logged *)

Lemma run_same_view {A : Type} (env : Env) (p : Prog A) (w v : World) :
  same_view w v ->
  same_view (fst (run env p w)) (fst (run env p v)) /\
  snd (run env p w) = snd (run env p v).
Proof.
  revert w v; induction p; intros w v [Hb Hio]; simpl.
  - repeat split; auto.
  - repeat split; auto.
  - rewrite Hb. apply H. now split.
  - apply IHp. unfold same_view, set_state; simpl. now rewrite Hb, Hio.
  - apply IHp. now split.
  - apply IHp. unfold same_view, add_event; simpl. now rewrite Hb, Hio.
  - rewrite Hio. apply H. unfold same_view, add_event; simpl. now rewrite Hb, Hio.
  - rewrite Hio. apply H. unfold same_view, add_event; simpl. now rewrite Hb, Hio.
  - rewrite Hio. destruct (latency env _ c).
    + apply H. unfold same_view, add_event; simpl. now rewrite Hb, Hio.
    + unfold same_view; simpl. now rewrite Hb, Hio.
  - rewrite Hio.
    destruct (latency env _ c) as [t|]; [destruct (t <? ms)%N|];
      apply H; unfold same_view, add_event; simpl; now rewrite Hb, Hio.
  - apply IHp. unfold same_view, add_event; simpl. now rewrite Hb, Hio.
Qed.

Lemma same_view_add_log (l : Level) (m : string) (w : World) :
  same_view (add_log l m w) w.
Proof. now split. Qed.

Lemma same_view_sym (w v : World) : same_view w v -> same_view v w.
Proof. intros [? ?]; now split. Qed.

(** ** [clean()] *)

Lemma run_filter_children (env : Env) (f : string -> bool) (l : list Child) (w : World) :
  exists w',
    run env (filter_children f l) w
      = (w', Returned (filter (fun c => f (command_text c)) l)) /\
    browser w' = browser w /\ io w' = io w.
Proof.
  revert w; induction l as [|c l IH]; intros w; cbn [filter_children filter].
  - run_prims. eauto.
  - destruct (f (command_text c)).
    + run_prims. rewrite run_bind.
      destruct (IH (add_log silly "getBrowserPids() child: %s" w)) as (w' & -> & Hb & Hio).
      run_prims. eauto.
    + apply IH.
Qed.

Lemma run_getBrowserPidList_view (env : Env) (w : World) :
  browser (fst (run env getBrowserPidList w)) = browser w /\
  io (fst (run env getBrowserPidList w)) = (io w ++ [EvCall PsTree])%list.
Proof.
  unfold getBrowserPidList. run_prims.
  rewrite run_try_catch, run_bind. unfold await. cbn [run add_event io add_log browser].
  destruct (latency env _ _); [|now split].
  destruct (respond env _ _) as [children|e]; run_prims; [|now split].
  destruct (String.eqb _ "phantomjs");
    [|destruct (String.eqb _ "chrome" || String.eqb _ "chrome-headless")];
    run_prims; try (now split);
    rewrite run_bind;
    match goal with
    | |- context [run env (filter_children ?f ?l) ?w0] =>
        destruct (run_filter_children env f l w0) as (w' & -> & Hb & Hio)
    end; run_prims; rewrite Hb, Hio; now split.
Qed.

Lemma run_kill_each (env : Env) (pids : list Z) (w : World) :
  run env (kill_each pids) w =
  (mkWorld (browser w) (io w ++ map EvKill pids)
           (logs w ++ repeat kill_warning (kill_failures env (io w) pids)),
   Returned tt).
Proof.
  revert w; induction pids as [|pid rest IH]; intros w; cbn [kill_each map kill_failures].
  - run_prims. cbn [repeat]. rewrite !app_nil_r. now destruct w.
  - cbn [run add_event io].
    destruct (process_kill env _ pid); run_prims; rewrite IH;
      cbn [browser io logs add_event add_log repeat Nat.add];
      rewrite <- !app_assoc; reflexivity.
Qed.

Lemma run_retryAttempt_first {A : Type} (env : Env) (n : nat) (backoff i : N)
  (fn : N -> Prog A) (w w' : World) (a : A) :
  run env (fn i) w = (w', Returned a) ->
  run env (retryAttempt n backoff i fn) w = (w', Returned a).
Proof.
  intros H. destruct n; cbn [retryAttempt]; rewrite run_try_catch, H; reflexivity.
Qed.

Lemma run_clean_poll_view (env : Env) (i : N) (w : World) :
  browser (fst (run env (clean_poll i) w)) = browser w /\
  io (fst (run env (clean_poll i) w)) = (io w ++ [EvCall PsTree])%list.
Proof.
  unfold clean_poll. run_prims. rewrite run_bind.
  destruct (run_getBrowserPidList_view env
              (add_log silly "clean() retryPromise: attempt %s time for timeout %s" w))
    as [Hb Hio].
  destruct (run env getBrowserPidList _) as [w1 [pids|e|]]; cbn [fst] in *;
    try (now split).
  destruct (0 <? List.length pids)%nat; run_prims; now split.
Qed.

Lemma run_retryAttempt_polling (env : Env) (n : nat) (backoff : N) :
  forall (i : N) (w : World),
  exists polling,
    io (fst (run env (retryAttempt n backoff i clean_poll) w)) = (io w ++ polling)%list /\
    Forall polling_event polling.
Proof.
  induction n as [|n IH]; intros i w; cbn [retryAttempt]; rewrite run_try_catch;
    destruct (run_clean_poll_view env i w) as [_ Hio];
    destruct (run env (clean_poll i) w) as [w1 [[]|e|]]; cbn [fst] in *;
    try (exists [EvCall PsTree]; split; [assumption | repeat constructor]).
  run_prims.
  destruct (IH (i + 1)%N (add_event (EvSleep (i * backoff)) w1)) as (polling & Hp & Hall).
  exists (EvCall PsTree :: EvSleep (i * backoff) :: polling). split.
  - rewrite Hp. cbn [io add_event]. rewrite Hio, <- !app_assoc. reflexivity.
  - constructor; [now left|]. constructor; [right; eauto | assumption].
Qed.

Section Orphans.

Variable env : Env.
Variable b : Browser.

(** Whenever the enumerator is asked, it reports at least one matching
    process. *)
Hypothesis remain :
  forall w0, browser w0 = b ->
  exists pids, snd (run env getBrowserPidList w0) = Returned pids /\ pids <> [].

Lemma run_clean_poll_fails (i : N) (w0 : World) :
  browser w0 = b ->
  exists w1 (pids : list Z),
    run env (clean_poll i) w0
      = (w1, Thrown (mkError ("browser number: "
                              ++ string_of_Z (Z.of_nat (List.length pids))))) /\
    pids <> [] /\ browser w1 = b /\ io w1 = (io w0 ++ [EvCall PsTree])%list.
Proof.
  intros Hb.
  destruct (run_clean_poll_view env i w0) as [Hb1 Hio1].
  revert Hb1 Hio1. unfold clean_poll. run_prims. rewrite run_bind.
  destruct (remain (add_log silly
              "clean() retryPromise: attempt %s time for timeout %s" w0) Hb)
    as (pids & Hr & Hne).
  destruct (run env getBrowserPidList _) as [w1 c]; cbn [snd] in Hr; subst c.
  destruct pids as [|pid pids]; [congruence|].
  cbn [List.length Nat.ltb Nat.leb]. run_prims. intros Hb1 Hio1.
  exists w1, (pid :: pids). repeat split; auto; congruence.
Qed.

Lemma run_retryAttempt_exhausts (n : nat) (backoff : N) :
  forall (i : N) (w0 : World),
  browser w0 = b ->
  exists w1 (pids : list Z),
    run env (retryAttempt n backoff i clean_poll) w0
      = (w1, Thrown (mkError ("browser number: "
                              ++ string_of_Z (Z.of_nat (List.length pids))))) /\
    pids <> [] /\ browser w1 = b /\
    io w1 = (io w0 ++ exhausted_trace n backoff i)%list.
Proof.
  induction n as [|n IH]; intros i w0 Hb; cbn [retryAttempt exhausted_trace];
    rewrite run_try_catch;
    destruct (run_clean_poll_fails i w0 Hb) as (w1 & pids & -> & Hne & Hb1 & Hio1).
  - run_prims. eauto 10.
  - run_prims.
    destruct (IH (i + 1)%N (add_event (EvSleep (i * backoff)) w1) Hb1)
      as (w2 & pids2 & -> & Hne2 & Hb2 & Hio2).
    exists w2, pids2. repeat split; auto.
    rewrite Hio2. cbn [io add_event]. rewrite Hio1, <- !app_assoc. reflexivity.
Qed.

End Orphans.

(** C9: [clean(kill)] succeeds at once, with no back-off delay, when its
    first poll finds no matching browser process; with [kill = true] every
    pid the enumerator returned is sent a kill signal before the polling
    begins, a refused signal being logged and not propagated; and when
    matching processes remain through the whole budget of 15 polls, the
    delays between them growing by 100 ms, it fails with the error that
    counts the browsers left. *)
Theorem clean_behaviour (env : Env) (w : World) (kill : bool) :
  (snd (run env (clean_kill kill) w) = Returned tt ->
   snd (run env getBrowserPidList (fst (run env (clean_kill kill) w))) = Returned [] ->
   exists w',
     run env (clean kill) w = (w', Returned tt) /\
     io w' = (io (fst (run env (clean_kill kill) w)) ++ [EvCall PsTree])%list) /\
  (forall pids,
     snd (run env getBrowserPidList w) = Returned pids ->
     (forall w0,
        run env (kill_each pids) w0
        = (mkWorld (browser w0) (io w0 ++ map EvKill pids)
                   (logs w0 ++ repeat kill_warning (kill_failures env (io w0) pids)),
           Returned tt)) /\
     snd (run env (clean_kill true) w) = Returned tt /\
     exists polling,
       io (fst (run env (clean true) w))
         = (io w ++ [EvCall PsTree] ++ map EvKill pids ++ polling)%list /\
       Forall polling_event polling) /\
  ((forall w0, browser w0 = browser w ->
      exists pids, snd (run env getBrowserPidList w0) = Returned pids /\ pids <> []) ->
   exists w' (pids : list Z),
     run env (clean kill) w
       = (w', Thrown (mkError ("browser number: "
                               ++ string_of_Z (Z.of_nat (List.length pids))))) /\
     pids <> [] /\
     io w' = (io (fst (run env (clean_kill kill) w))
              ++ [EvCall PsTree; EvSleep 100; EvCall PsTree; EvSleep 200;
                  EvCall PsTree; EvSleep 300; EvCall PsTree; EvSleep 400;
                  EvCall PsTree; EvSleep 500; EvCall PsTree; EvSleep 600;
                  EvCall PsTree; EvSleep 700; EvCall PsTree; EvSleep 800;
                  EvCall PsTree; EvSleep 900; EvCall PsTree; EvSleep 1000;
                  EvCall PsTree; EvSleep 1100; EvCall PsTree; EvSleep 1200;
                  EvCall PsTree; EvSleep 1300; EvCall PsTree; EvSleep 1400;
                  EvCall PsTree])%list).
Proof.
  pose proof (run_same_view env (clean_kill kill)
                (same_view_add_log verbose "clean(kill=%s)" w)) as [[Hkb Hkio] Hks].
  assert (Hkw : browser (fst (run env (clean_kill kill) w)) = browser w).
  { apply run_NoModify. unfold clean_kill, log.
    pose proof NoModify_getBrowserPidList. pose proof NoModify_kill_each. frame. }
  split; [|split].
  - intros Hk Hp. unfold clean. run_prims. rewrite run_bind.
    rewrite <- Hks in Hk.
    destruct (run env (clean_kill kill) (add_log verbose "clean(kill=%s)" w))
      as [wk ck]; cbn [fst snd] in *. rewrite Hk.
    unfold retryPromise.
    assert (Hv : same_view
                   (add_log silly "clean() retryPromise: attempt %s time for timeout %s" wk)
                   (fst (run env (clean_kill kill) w))) by now split.
    pose proof (run_same_view env getBrowserPidList Hv) as [[_ Hio1] Hs1].
    rewrite Hp in Hs1.
    destruct (run_getBrowserPidList_view env (fst (run env (clean_kill kill) w))) as [_ Hio2].
    rewrite Hio2 in Hio1.
    destruct (run env getBrowserPidList
                (add_log silly "clean() retryPromise: attempt %s time for timeout %s" wk))
      as [w1 c1] eqn:E1; cbn [fst snd] in *. subst c1.
    exists w1. split; [|assumption].
    apply run_retryAttempt_first. unfold clean_poll. run_prims.
    rewrite run_bind, E1. reflexivity.
  - intros pids Hp. split; [intros w0; apply run_kill_each|].
    assert (Hck : exists wk,
               run env (clean_kill true) w = (wk, Returned tt) /\
               io wk = (io w ++ [EvCall PsTree] ++ map EvKill pids)%list).
    { unfold clean_kill. rewrite run_bind.
      destruct (run_getBrowserPidList_view env w) as [_ Hio].
      destruct (run env getBrowserPidList w) as [w1 c1]; cbn [fst snd] in *. subst c1.
      run_prims. rewrite run_kill_each. eexists; split; [reflexivity|].
      cbn [io add_log]. rewrite Hio, <- app_assoc. reflexivity. }
    destruct Hck as (wk & Hrk & Hiok). split; [now rewrite Hrk|].
    pose proof (run_same_view env (clean_kill true)
                  (same_view_add_log verbose "clean(kill=%s)" w)) as [[_ Hio'] Hs'].
    rewrite Hrk in Hio', Hs'. cbn [fst snd] in *.
    unfold clean. run_prims. rewrite run_bind.
    destruct (run env (clean_kill true) (add_log verbose "clean(kill=%s)" w))
      as [wk' ck']; cbn [fst snd] in *. subst ck'.
    unfold retryPromise.
    destruct (run_retryAttempt_polling env (clean_max - 1) clean_backoff 1 wk')
      as (polling & Hpoll & Hall).
    exists polling. split; [|assumption].
    rewrite Hpoll, Hio', Hiok, <- !app_assoc. reflexivity.
  - intros Hrem. unfold clean. run_prims. rewrite run_bind.
    assert (Hret : snd (run env (clean_kill kill) w) = Returned tt).
    { unfold clean_kill. destruct kill; [|reflexivity].
      rewrite run_bind.
      destruct (Hrem w eq_refl) as (pids & Hr & _).
      destruct (run env getBrowserPidList w) as [w1 c1]; cbn [snd] in Hr; subst c1.
      run_prims. now rewrite run_kill_each. }
    rewrite <- Hks in Hret. rewrite <- Hkw, <- Hkb in Hrem. rewrite <- Hkio.
    destruct (run env (clean_kill kill) (add_log verbose "clean(kill=%s)" w))
      as [wk ck]; cbn [fst snd] in *. rewrite Hret.
    unfold retryPromise.
    destruct (@run_retryAttempt_exhausts env (browser wk) Hrem
                (clean_max - 1) clean_backoff 1%N wk eq_refl)
      as (w1 & pids & -> & Hne & _ & Hio1).
    exists w1, pids. repeat split; assumption.
Qed.

Lemma clean_behaviour_witness :
  (exists w',
     run env_ok (clean false) (stable_open "chrome") = (w', Returned tt) /\
     io w' = (io (fst (run env_ok (clean_kill false) (stable_open "chrome")))
              ++ [EvCall PsTree])%list) /\
  (snd (run env_orphans (clean_kill true) (stable_open "chrome")) = Returned tt /\
   exists polling,
     io (fst (run env_orphans (clean true) (stable_open "chrome")))
       = (io (stable_open "chrome") ++ [EvCall PsTree] ++ map EvKill [4242; 7] ++ polling)%list /\
     Forall polling_event polling) /\
  (exists w' (pids : list Z),
     run env_orphans (clean true) (stable_open "chrome")
       = (w', Thrown (mkError ("browser number: "
                               ++ string_of_Z (Z.of_nat (List.length pids))))) /\
     pids <> [] /\
     io w' = (io (fst (run env_orphans (clean_kill true) (stable_open "chrome")))
              ++ [EvCall PsTree; EvSleep 100; EvCall PsTree; EvSleep 200;
                  EvCall PsTree; EvSleep 300; EvCall PsTree; EvSleep 400;
                  EvCall PsTree; EvSleep 500; EvCall PsTree; EvSleep 600;
                  EvCall PsTree; EvSleep 700; EvCall PsTree; EvSleep 800;
                  EvCall PsTree; EvSleep 900; EvCall PsTree; EvSleep 1000;
                  EvCall PsTree; EvSleep 1100; EvCall PsTree; EvSleep 1200;
                  EvCall PsTree; EvSleep 1300; EvCall PsTree; EvSleep 1400;
                  EvCall PsTree])%list).
Proof.
  split; [|split].
  - apply (proj1 (clean_behaviour env_ok (stable_open "chrome") false));
      vm_compute; reflexivity.
  - apply (proj1 (proj2 (clean_behaviour env_orphans (stable_open "chrome") true))
                 [4242; 7]).
    vm_compute; reflexivity.
  - apply (proj2 (proj2 (clean_behaviour env_orphans (stable_open "chrome") true))).
    intros w0 Hb. exists [4242; 7]. split; [|discriminate].
    unfold getBrowserPidList. run_prims. rewrite Hb. vm_compute. reflexivity.
Defined.

(** ** [open()] *)

Lemma navigations_app (l l' : list Event) :
  navigations (l ++ l') = (navigations l + navigations l')%nat.
Proof. unfold navigations. now rewrite filter_app, length_app. Qed.

Lemma at_most_gets_bind {A B : Type} (m n : nat) (p : Prog A) (f : A -> Prog B) :
  at_most_gets m p -> (forall a, at_most_gets n (f a)) ->
  at_most_gets (m + n) (bind p f).
Proof.
  intros Hp Hf env w. rewrite run_bind. specialize (Hp env w).
  destruct (run env p w) as [w1 [a|e|]]; cbn [fst] in *; try lia.
  specialize (Hf a env w1). lia.
Qed.

Lemma at_most_gets_try_catch {A : Type} (m n : nat) (p : Prog A) (h : Error -> Prog A) :
  at_most_gets m p -> (forall e, at_most_gets n (h e)) ->
  at_most_gets (m + n) (try_catch p h).
Proof.
  intros Hp Hh env w. rewrite run_try_catch. specialize (Hp env w).
  destruct (run env p w) as [w1 [a|e|]]; cbn [fst] in *; try lia.
  specialize (Hh e env w1). lia.
Qed.

Lemma at_most_gets_quiet {A : Type} (p : Prog A) :
  (forall env w, navigations (io (fst (run env p w))) = navigations (io w)) ->
  at_most_gets 0 p.
Proof. intros H env w. rewrite H. lia. Qed.

Lemma at_most_gets_reset (e : Error) :
  at_most_gets 0
    (log error "open() exception: %s" ;;
     await DriverClose ;; await DriverQuit ;; await DriverInit ;;
     log verbose "open() driver.{close,quit,init}() done" ;;
     Ret false).
Proof.
  apply at_most_gets_quiet. intros env w. unfold await. run_prims.
  repeat (match goal with
          | |- context [latency env ?h ?c] => destruct (latency env h c)
          | |- context [respond env ?h ?c] => destruct (respond env h c)
          end; run_prims);
    rewrite ?navigations_app; cbn; lia.
Qed.

Lemma at_most_gets_attempt (u : string) (ttl : nat) :
  at_most_gets 1 (open_attempt u ttl ;; Ret true).
Proof.
  intros env w. unfold open_attempt. run_prims.
  destruct (latency env _ _) as [t|]; [destruct (t <? TIMEOUT)%N|];
    try destruct (respond env _ _) as [[]|e]; run_prims;
    rewrite ?navigations_app; cbn; lia.
Qed.

Lemma at_most_gets_open_loop (u : string) (ttl : nat) :
  at_most_gets ttl (open_loop u ttl).
Proof.
  induction ttl as [|ttl IH]; cbn [open_loop].
  - apply at_most_gets_quiet. intros env w. unfold await. run_prims.
    repeat (match goal with
            | |- context [latency env ?h ?c] => destruct (latency env h c)
            | |- context [respond env ?h ?c] => destruct (respond env h c)
            end; run_prims);
      rewrite ?navigations_app; cbn; lia.
  - intros env w. rewrite run_bind, run_log. cbv beta iota.
    rewrite run_bind, run_try_catch.
    pose proof (at_most_gets_attempt u ttl env
                  (add_log verbose "open() begin for ttl:%d" w)) as Ha.
    cbn [io add_log] in Ha.
    destruct (run env (open_attempt u ttl ;; Ret true) _) as [w1 [done|e|]];
      cbn [fst] in Ha.
    + destruct done.
      * cbn [run fst]. lia.
      * specialize (IH env w1). lia.
    + pose proof (at_most_gets_reset e env w1) as Hr. revert Hr.
      destruct (run env _ w1) as [w2 [done|e'|]]; cbn [fst]; intros Hr; try lia.
      destruct done.
      * cbn [run fst]. lia.
      * specialize (IH env w2). lia.
    + cbn [fst]. lia.
Qed.

Lemma run_await_ok (env : Env) (c : Call) (v : Resp c) (w : World) :
  latency env (io w ++ [EvCall c]) c <> None ->
  respond env (io w ++ [EvCall c]) c = Ok v ->
  run env (await c) w = (add_event (EvCall c) w, Returned v).
Proof.
  intros Hl Hr. unfold await. cbn [run add_event io].
  destruct (latency env _ c); [|congruence]. now rewrite Hr.
Qed.

Lemma run_await_bind_ok {B : Type} (env : Env) (c : Call) (v : Resp c)
  (f : Resp c -> Prog B) (w : World) :
  latency env (io w ++ [EvCall c]) c <> None ->
  respond env (io w ++ [EvCall c]) c = Ok v ->
  run env (bind (await c) f) w = run env (f v) (add_event (EvCall c) w).
Proof.
  intros Hl Hr. now rewrite run_bind, (@run_await_ok env c v w Hl Hr).
Qed.

Lemma calls_app (l l' : list Event) : calls (l ++ l') = (calls l ++ calls l')%list.
Proof. apply filter_app. Qed.

Section Exhaustion.

Variable env : Env.
Variable url : string.
Hypothesis resets : resets_succeed env.
Hypothesis fails : get_fails env url.

Lemma run_close_ok (B : Type) (f : unit -> Prog B) (w : World) :
  run env (bind (await DriverClose) f) w
  = run env (f tt) (add_event (EvCall DriverClose) w).
Proof. apply (@run_await_bind_ok B env DriverClose tt f w); apply resets. Qed.

Lemma run_quit_ok (B : Type) (f : unit -> Prog B) (w : World) :
  run env (bind (await DriverQuit) f) w
  = run env (f tt) (add_event (EvCall DriverQuit) w).
Proof. apply (@run_await_bind_ok B env DriverQuit tt f w); apply resets. Qed.

Lemma run_init_ok (B : Type) (f : unit -> Prog B) (w : World) :
  run env (bind (await DriverInit) f) w
  = run env (f tt) (add_event (EvCall DriverInit) w).
Proof. apply (@run_await_bind_ok B env DriverInit tt f w); apply resets. Qed.

Lemma run_open_attempt_fails (ttl : nat) (w : World) :
  exists e w1 tr,
    run env (open_attempt url ttl) w = (w1, Thrown e) /\
    browser w1 = browser w /\
    io w1 = (io w ++ tr)%list /\
    calls tr = [EvCall (DriverGet url)] /\
    ((forall h, latency env h (DriverGet url) = None) ->
     tr = [EvCall (DriverGet url); EvTimeout 60000]).
Proof.
  unfold open_attempt. cbn [run add_event io].
  pose proof (fails (io w ++ [EvCall (DriverGet url)])%list) as Hf.
  destruct (latency env _ _) as [t|] eqn:El.
  - destruct (t <? TIMEOUT)%N eqn:Et.
    + destruct Hf as [Hf | (e & He)].
      * apply N.ltb_lt in Et. unfold TIMEOUT in Et. lia.
      * rewrite He. run_prims.
        exists e, (add_event (EvCall (DriverGet url)) w), [EvCall (DriverGet url)].
        repeat split. intros Hn. rewrite Hn in El. discriminate.
    + run_prims. do 2 eexists.
      exists [EvCall (DriverGet url); EvTimeout 60000].
      split; [reflexivity|]. cbn [browser io add_event].
      rewrite <- app_assoc. repeat split.
  - run_prims. do 2 eexists.
    exists [EvCall (DriverGet url); EvTimeout 60000].
    split; [reflexivity|]. cbn [browser io add_event].
    rewrite <- app_assoc. repeat split.
Qed.

Lemma run_open_loop_exhausts (ttl : nat) :
  forall w,
  exists w' tr,
    run env (open_loop url ttl) w
      = (w', Thrown (mkError "open fail because ttl expired")) /\
    browser w' = browser w /\
    io w' = (io w ++ tr)%list /\
    calls tr = calls (hanging_trace url ttl) /\
    ((forall h, latency env h (DriverGet url) = None) ->
     tr = hanging_trace url ttl).
Proof.
  induction ttl as [|ttl IH]; intros w; cbn [open_loop hanging_trace].
  - rewrite run_close_ok, run_quit_ok.
    run_prims. do 2 eexists. split; [reflexivity|].
    cbn [browser io add_event]. rewrite <- app_assoc. repeat split.
  - rewrite run_bind, run_log. cbv beta iota.
    rewrite run_bind, run_try_catch, run_bind.
    destruct (run_open_attempt_fails ttl (add_log verbose "open() begin for ttl:%d" w))
      as (e & w1 & tr1 & -> & Hb1 & Hio1 & Hc1 & Hn1).
    rewrite run_bind, run_log. cbv beta iota.
    rewrite run_close_ok, run_quit_ok, run_init_ok.
    run_prims.
    match goal with
    | |- context [run env (open_loop url ttl) ?w0] =>
        destruct (IH w0) as (w' & tr & -> & Hb & Hio & Hc & Hn)
    end.
    cbn [browser io add_event add_log] in *.
    exists w', (tr1 ++ [EvCall DriverClose; EvCall DriverQuit; EvCall DriverInit] ++ tr)%list.
    split; [reflexivity|]. split; [congruence|]. split; [|split].
    + rewrite Hio, Hio1, <- !app_assoc. reflexivity.
    + rewrite !calls_app, Hc1, Hc. reflexivity.
    + intros Hnever. rewrite (Hn1 Hnever), (Hn Hnever). reflexivity.
Qed.

End Exhaustion.

(** C1, as the code has it: a call of [open(url)] issues at most 3
    [driver.get(url)]; an attempt succeeds exactly when the navigation is
    carried out before the 60 s timer fires; when the driver carries out
    its resets and all 3 attempts fail, each failed attempt is followed by
    [close()], [quit()] and [init()], the loop by a final [close()] and
    [quit()], and [open()] fails with the fixed error [open fail because
    ttl expired]; when no navigation ever settles, the timer fires three
    times. *)
Theorem open_attempts (env : Env) (a : ascii) (u : string) (w : World) :
  (forall url,
     (navigations (io (fst (run env (open url) w))) <= navigations (io w) + 3)%nat) /\
  (forall ttl,
     snd (run env (open_attempt (String a u) ttl) w) = Returned tt <->
     exists t,
       latency env (io w ++ [EvCall (DriverGet (String a u))])%list (DriverGet (String a u))
         = Some t /\
       (t < 60000)%N /\
       respond env (io w ++ [EvCall (DriverGet (String a u))])%list (DriverGet (String a u))
         = Ok tt) /\
  (resets_succeed env -> get_fails env (String a u) ->
   exists w' tr,
     run env (open (Some (String a u))) w
       = (w', Thrown (mkError "open fail because ttl expired")) /\
     browser w' = browser w /\
     io w' = (io w ++ tr)%list /\
     calls tr =
       [EvCall (DriverGet (String a u));
        EvCall DriverClose; EvCall DriverQuit; EvCall DriverInit;
        EvCall (DriverGet (String a u));
        EvCall DriverClose; EvCall DriverQuit; EvCall DriverInit;
        EvCall (DriverGet (String a u));
        EvCall DriverClose; EvCall DriverQuit; EvCall DriverInit;
        EvCall DriverClose; EvCall DriverQuit] /\
     ((forall h, latency env h (DriverGet (String a u)) = None) ->
      tr =
        [EvCall (DriverGet (String a u)); EvTimeout 60000;
         EvCall DriverClose; EvCall DriverQuit; EvCall DriverInit;
         EvCall (DriverGet (String a u)); EvTimeout 60000;
         EvCall DriverClose; EvCall DriverQuit; EvCall DriverInit;
         EvCall (DriverGet (String a u)); EvTimeout 60000;
         EvCall DriverClose; EvCall DriverQuit; EvCall DriverInit;
         EvCall DriverClose; EvCall DriverQuit])).
Proof.
  split; [|split].
  - intros url. unfold open. rewrite run_bind, run_log. cbv beta iota.
    rewrite run_bind.
    assert (Hq : forall w0 : World,
               (navigations (io (add_event EvHostname w0)) = navigations (io w0))%nat).
    { intros w0. cbn [io add_event]. rewrite navigations_app. cbn. lia. }
    assert (Hl : forall v w0,
               (navigations (io (fst (run env (open_loop v 3) w0)))
                <= navigations (io w0) + 3)%nat)
      by (intros v w0; apply at_most_gets_open_loop).
    destruct url as [[|c s]|]; cbn [run bind fst].
    + specialize (Hq (add_log verbose "open(%s)" w)).
      destruct (cookie_hostname env _) as [[|c s]|]; cbn [run fst];
        try (cbn [io add_log] in Hq; lia).
      specialize (Hl ("https://" ++ String c s)
                     (add_event EvHostname (add_log verbose "open(%s)" w))).
      cbn [io add_log] in *. lia.
    + specialize (Hl (String c s) (add_log verbose "open(%s)" w)).
      cbn [io add_log] in *. lia.
    + specialize (Hq (add_log verbose "open(%s)" w)).
      destruct (cookie_hostname env _) as [[|c s]|]; cbn [run fst];
        try (cbn [io add_log] in Hq; lia).
      specialize (Hl ("https://" ++ String c s)
                     (add_event EvHostname (add_log verbose "open(%s)" w))).
      cbn [io add_log] in *. lia.
  - intros ttl. unfold open_attempt. cbn [run add_event io].
    destruct (latency env _ _) as [t|].
    + destruct (t <? TIMEOUT)%N eqn:Et.
      * apply N.ltb_lt in Et. unfold TIMEOUT in Et.
        destruct (respond env _ _) as [[]|e]; run_prims; split.
        -- intros _. exists t. repeat split. lia.
        -- reflexivity.
        -- discriminate.
        -- intros (t' & _ & _ & He). discriminate.
      * apply N.ltb_ge in Et. unfold TIMEOUT in Et. run_prims. split.
        -- discriminate.
        -- intros (t' & Ht & Hlt & _). injection Ht as <-. lia.
    + run_prims. split; [discriminate|]. intros (t' & Ht & _). discriminate.
  - intros Hres Hfail. unfold open. rewrite run_bind, run_log. cbv beta iota.
    cbn [bind].
    destruct (run_open_loop_exhausts Hres Hfail 3 (add_log verbose "open(%s)" w))
      as (w' & tr & Hr & Hb & Hio & Hc & Hn).
    exists w', tr. repeat split; assumption.
Qed.

Lemma open_attempts_witness :
  resets_succeed env_get_hangs /\
  get_fails env_get_hangs "https://wx.qq.com" /\
  exists w' tr,
    run env_get_hangs (open (Some "https://wx.qq.com")) (stable_open "chrome")
      = (w', Thrown (mkError "open fail because ttl expired")) /\
    browser w' = browser (stable_open "chrome") /\
    io w' = (io (stable_open "chrome") ++ tr)%list /\
    calls tr =
      [EvCall (DriverGet "https://wx.qq.com");
       EvCall DriverClose; EvCall DriverQuit; EvCall DriverInit;
       EvCall (DriverGet "https://wx.qq.com");
       EvCall DriverClose; EvCall DriverQuit; EvCall DriverInit;
       EvCall (DriverGet "https://wx.qq.com");
       EvCall DriverClose; EvCall DriverQuit; EvCall DriverInit;
       EvCall DriverClose; EvCall DriverQuit] /\
    ((forall h, latency env_get_hangs h (DriverGet "https://wx.qq.com") = None) ->
     tr =
       [EvCall (DriverGet "https://wx.qq.com"); EvTimeout 60000;
        EvCall DriverClose; EvCall DriverQuit; EvCall DriverInit;
        EvCall (DriverGet "https://wx.qq.com"); EvTimeout 60000;
        EvCall DriverClose; EvCall DriverQuit; EvCall DriverInit;
        EvCall (DriverGet "https://wx.qq.com"); EvTimeout 60000;
        EvCall DriverClose; EvCall DriverQuit; EvCall DriverInit;
        EvCall DriverClose; EvCall DriverQuit]).
Proof.
  assert (Hres : resets_succeed env_get_hangs)
    by (intros h; repeat split; try discriminate; reflexivity).
  assert (Hfail : get_fails env_get_hangs "https://wx.qq.com")
    by (intros h; exact I).
  split; [exact Hres|]. split; [exact Hfail|].
  exact (proj2 (proj2 (open_attempts env_get_hangs "h" "ttps://wx.qq.com"
                                     (stable_open "chrome"))) Hres Hfail).
Defined.

(** C1, as stated, fails: whatever error [x] the three navigations are
    rejected with, [open()] fails with one and the same error, from which
    [x] cannot be recovered. *)
Lemma open_forgets_last_error :
  (forall x ttl w0,
     snd (run (env_get_rejects x) (open_attempt "https://wx.qq.com" ttl) w0)
     = Thrown x) /\
  (forall x,
     snd (run (env_get_rejects x) (open (Some "https://wx.qq.com")) (stable_open "chrome"))
     = Thrown (mkError "open fail because ttl expired")) /\
  ~ (exists cause : Error -> Error,
       forall x, exists e,
         snd (run (env_get_rejects x) (open (Some "https://wx.qq.com"))
                  (stable_open "chrome")) = Thrown e /\
         cause e = x).
Proof.
  assert (H : forall x,
             snd (run (env_get_rejects x) (open (Some "https://wx.qq.com"))
                      (stable_open "chrome"))
             = Thrown (mkError "open fail because ttl expired"))
    by (intros x; vm_compute; reflexivity).
  split; [intros x ttl w0; reflexivity|]. split; [exact H|].
  intros (cause & Hc).
  destruct (Hc (mkError "boom")) as (e1 & H1 & C1).
  destruct (Hc (mkError "bang")) as (e2 & H2 & C2).
  rewrite H in H1, H2. congruence.
Qed.

(** ** Interleaved calls *)

(** The sequential semantics is the interleaved one with a single call in
    the pool: resuming that call often enough yields what [run] yields. *)
Lemma drive_start {A : Type} (env : Env) (p : Prog A) :
  forall w, exists fuel, forall n, (fuel <= n)%nat ->
    drive n env (snd (start env p w)) (fst (start env p w)) = run env p w.
Proof.
  induction p; intros w; cbn [start run]; auto.
  - exists O. intros j _. now destruct j.
  - exists O. intros j _. now destruct j.
  - cbn [fst snd].
    destruct (latency env (io (add_event (EvCall c) w)) c) eqn:El.
    + destruct (H (respond env (io (add_event (EvCall c) w)) c) (add_event (EvCall c) w))
        as (fuel & Hf).
      exists (S fuel). intros [|j] Hn; [lia|]. cbn [drive resume]. rewrite El.
      specialize (Hf j ltac:(lia)).
      destruct (start env _ _) as [w' t']. exact Hf.
    + exists O. intros [|j] _; cbn [drive]; [reflexivity | now rewrite El].
  - cbn [fst snd].
    assert (Hk : forall o w0, exists fuel, forall j, (fuel <= j)%nat ->
                 (let (w', t') := start env (k o) w0 in drive j env t' w')
                 = run env (k o) w0).
    { intros o w0. destruct (H o w0) as (fuel & Hf). exists fuel. intros j Hn.
      specialize (Hf j Hn). now destruct (start env (k o) w0). }
    destruct (latency env (io (add_event (EvCall c) w)) c) as [t|] eqn:El;
      [destruct (t <? ms)%N eqn:Et|];
      match goal with
      | |- context [run env (k ?o) ?w0] => destruct (Hk o w0) as (fuel & Hf)
      end;
      exists (S fuel); (intros [|j] Hn; [lia|]); cbn [drive resume];
      rewrite El, ?Et; apply Hf; lia.
  - cbn [fst snd].
    destruct (IHp (add_event (EvSleep ms) w)) as (fuel & Hf).
    exists (S fuel). intros [|j] Hn; [lia|]. cbn [drive resume].
    specialize (Hf j ltac:(lia)).
    destruct (start env p _) as [w' t']. exact Hf.
Qed.

(** An [init()] that comes in while a [quit()] is under way leaves the
    switch with [target = open], [current = close] and no transition in
    process. *)
Lemma init_during_quit_unsettled :
  state (browser (world (exec env_ok init_during_quit (mkPool (initial "chrome") []))))
  = StateSwitch.mk open_ close false.
Proof. vm_compute; reflexivity. Qed.

(** Left alone, [init()] does what its [catch] block is written for: it
    either commits [current = open], or calls [quit()], which closes the
    session, and is rejected with the very error of its [try] block. *)
Lemma init_alone (env : Env) (w : World) :
  settles env ->
  StateSwitch.current_ (state (browser w)) = close ->
  (exists w',
     run env init w = (w', Returned tt) /\
     state (browser w') = StateSwitch.mk open_ open_ false) \/
  (exists w' w1 e,
     run env init w = (w', Thrown e) /\
     state (browser w') = StateSwitch.mk close close false /\
     run env
         (init_try
            (jumpUrl
               (cookie_hostname env
                  (io (add_event EvHostname (add_log verbose "init()" w))))))
         (add_event EvHostname
            (set_state (StateSwitch.current open_ false)
               (set_state (StateSwitch.target open_) (add_log verbose "init()" w))))
     = (w1, Thrown e)).
Proof.
  intros Hs Hc. unfold init. run_prims. rewrite Hc. run_prims.
  rewrite run_try_catch.
  match goal with
  | |- context [run env (init_try ?j) ?v] =>
      set (url := j); set (w0 := v)
  end.
  assert (Hn : NoModify (init_navigate url)).
  { unfold init_navigate, loadCookie, log, await. pose proof NoModify_open. frame. }
  pose proof (run_NoModify env Hn w0) as Hb.
  pose proof (run_settles (init_try url) Hs w0) as Hh.
  unfold init_try in *. rewrite run_bind in *.
  destruct (run env (init_navigate url) w0) as [w1 [[]|e|]]; cbn [fst snd] in *.
  - left. unfold init_commit. run_prims. rewrite Hb. subst w0. run_prims.
    eexists; split; [reflexivity|].
    cbn [set_state browser state]. rewrite Hb. reflexivity.
  - right. unfold init_catch. run_prims. rewrite run_bind.
    destruct (@run_quit_open env (add_log error "init() exception: %s" w1) Hs)
      as (w' & -> & Hst).
    { cbn [browser add_log]. rewrite Hb. subst w0. cbn. discriminate. }
    run_prims. exists w', w1, e. auto.
  - congruence.
Qed.

(** C7, evaluated where it fails: a [quit()] that comes in and completes
    while [init()] waits for its last navigation sets [target = close];
    [init()] then notices it and does not commit [current = open], but the
    [quit()] of its [catch] block is turned down by the already-closed
    guard, and it is that error which [init()] is rejected with, not the
    one raised for the intervening close. *)
Theorem init_rejected_with_quit_error :
  threads (exec env_ok quit_during_init (mkPool (initial "chrome") []))
  = [Finished (Err (mkError "quit() fail: on a already quit-ed browser"));
     Finished (Ok tt)] /\
  state (browser (world (exec env_ok quit_during_init (mkPool (initial "chrome") []))))
  = StateSwitch.mk close close false /\
  io (world (exec env_ok quit_during_init (mkPool (initial "chrome") [])))
  = [EvHostname; EvCall DriverInit;
     EvCall (DriverGet "https://wx.qq.com/zh_CN/htmledition/v2/images/webwxgeticon.jpg");
     EvCall CookieLoad; EvHostname; EvCall (DriverGet "https://wx.qq.com");
     EvCall DriverClose; EvCall DriverQuit; EvCall PsTree].
Proof. repeat split; vm_compute; reflexivity. Qed.

(** * Further properties *)

(** ** Generalities *)

Lemma io_extends {A : Type} (env : Env) (p : Prog A) :
  forall w, exists l, io (fst (run env p w)) = (io w ++ l)%list.
Proof.
  assert (Hstep : forall (q : Prog A) (ev : Event) (w : World),
             (forall w0, exists l, io (fst (run env q w0)) = (io w0 ++ l)%list) ->
             exists l, io (fst (run env q (add_event ev w))) = (io w ++ l)%list).
  { intros q ev w Hq. destruct (Hq (add_event ev w)) as (l & Hl).
    exists (ev :: l). rewrite Hl. cbn [io add_event]. now rewrite <- app_assoc. }
  induction p; intros w; cbn [run].
  - exists []. now rewrite app_nil_r.
  - exists []. now rewrite app_nil_r.
  - apply H.
  - exact (IHp (set_state f w)).
  - exact (IHp (add_log l m w)).
  - now apply Hstep.
  - apply (Hstep (k (cookie_hostname env (io (add_event EvHostname w))))). apply H.
  - apply (Hstep (k (process_kill env (io (add_event (EvKill pid) w)) pid))). apply H.
  - destruct (latency env _ c).
    + apply (Hstep (k (respond env (io (add_event (EvCall c) w)) c))). apply H.
    + exists [EvCall c]. reflexivity.
  - assert (Ht : forall q : Prog A,
               (forall w0, exists l, io (fst (run env q w0)) = (io w0 ++ l)%list) ->
               exists l, io (fst (run env q (add_event (EvTimeout ms) (add_event (EvCall c) w))))
                         = (io w ++ l)%list).
    { intros q Hq. destruct (Hstep q (EvTimeout ms) (add_event (EvCall c) w) Hq) as (l & Hl).
      exists (EvCall c :: l). rewrite Hl. cbn [io add_event]. now rewrite <- app_assoc. }
    destruct (latency env _ c) as [t|]; [destruct (t <? ms)%N|].
    + apply (Hstep (k (Some (respond env (io (add_event (EvCall c) w)) c)))). apply H.
    + apply Ht, H.
    + apply Ht, H.
  - now apply Hstep.
Qed.

(** ** [quit()], further *)

Lemma run_quit_closed (env : Env) (w : World) :
  StateSwitch.current_ (state (browser w)) = close ->
  run env quit w =
  (add_log warn
     (if StateSwitch.inprocess (state (browser w))
      then "quit() fail: on a browser with state.current():`close` and inprocess():`true` ?"
      else "quit() fail: on a already quit-ed browser")
     (add_log verbose "quit()" w),
   Thrown (mkError
     (if StateSwitch.inprocess (state (browser w))
      then "quit() fail: on a browser with state.current():`close` and inprocess():`true` ?"
      else "quit() fail: on a already quit-ed browser"))).
Proof.
  intros Hc. unfold quit. run_prims. rewrite Hc. run_prims.
  destruct (StateSwitch.inprocess (state (browser w))); reflexivity.
Qed.

(** X1: [quit()] on a session whose current state is [close] is turned down:
    it throws, with a message that tells a closed browser from one that is
    closing, calls no collaborator and leaves the state as it was. *)
Theorem quit_already_closed (env : Env) (w : World) :
  StateSwitch.current_ (state (browser w)) = close ->
  exists w',
    run env quit w =
      (w', Thrown (mkError
             (if StateSwitch.inprocess (state (browser w))
              then "quit() fail: on a browser with state.current():`close` and inprocess():`true` ?"
              else "quit() fail: on a already quit-ed browser"))) /\
    browser w' = browser w /\
    io w' = io w.
Proof.
  intros Hc. rewrite (run_quit_closed env w Hc). eexists; repeat split.
Qed.

Lemma quit_already_closed_witness :
  StateSwitch.current_ (state (browser (initial "chrome"))) = close /\
  exists w',
    run env_ok quit (initial "chrome") =
      (w', Thrown (mkError "quit() fail: on a already quit-ed browser")) /\
    browser w' = browser (initial "chrome") /\
    io w' = io (initial "chrome").
Proof.
  split; [reflexivity|].
  apply (quit_already_closed env_ok (initial "chrome")). reflexivity.
Defined.

(** X2: two [quit()] in direct succession: once the first has gone through,
    the second is rejected as a quit on an already closed browser, and
    calls no collaborator. *)
Theorem quit_twice (env : Env) (w : World) :
  settles env ->
  StateSwitch.current_ (state (browser w)) <> close ->
  exists w',
    run env (quit ;; quit) w =
      (w', Thrown (mkError "quit() fail: on a already quit-ed browser")) /\
    state (browser w') = StateSwitch.mk close close false /\
    io w' = io (fst (run env quit w)).
Proof.
  intros Hs Hc. rewrite run_bind.
  destruct (@run_quit_open env w Hs Hc) as (w1 & -> & Hst).
  rewrite run_quit_closed by now rewrite Hst.
  rewrite Hst. cbn [StateSwitch.inprocess StateSwitch.inProcess].
  eexists; split; [reflexivity|]. cbn [browser add_log io fst]. auto.
Qed.

Lemma quit_twice_witness :
  settles env_stuck /\
  StateSwitch.current_ (state (browser (stable_open "phantomjs"))) <> close /\
  exists w',
    run env_stuck (quit ;; quit) (stable_open "phantomjs") =
      (w', Thrown (mkError "quit() fail: on a already quit-ed browser")) /\
    state (browser w') = StateSwitch.mk close close false /\
    io w' = io (fst (run env_stuck quit (stable_open "phantomjs"))).
Proof.
  assert (Hs : settles env_stuck) by (intros h c; discriminate).
  split; [exact Hs|]. split; [discriminate|].
  apply (@quit_twice env_stuck (stable_open "phantomjs") Hs). discriminate.
Defined.

Lemma run_quit_driver (env : Env) (w : World) :
  settles env ->
  exists w1,
    run env quit_driver w = (w1, Returned tt) /\
    browser w1 = browser w /\
    io w1 = (io w ++ [EvCall DriverClose; EvCall DriverQuit])%list.
Proof.
  intros Hs. unfold quit_driver. cbn [run bind add_event io].
  destruct (latency env _ DriverClose) eqn:E1; [|now apply Hs in E1].
  destruct (respond env _ DriverClose) as [[]|e1]; run_prims;
    (destruct (latency env _ DriverQuit) eqn:E2; [|now apply Hs in E2]);
    destruct (respond env _ DriverQuit) as [[]|e2]; run_prims;
    (eexists; split; [reflexivity|]; cbn [browser io add_event add_log];
     split; [reflexivity|]; now rewrite <- app_assoc).
Qed.

Lemma run_retryPromise_clean_first (env : Env) (w : World) :
  exists rest,
    io (fst (run env (retryPromise clean_max clean_backoff clean_poll) w))
    = (io w ++ EvCall PsTree :: rest)%list.
Proof.
  unfold retryPromise. cbn [clean_max Nat.sub retryAttempt].
  rewrite run_try_catch.
  destruct (run_clean_poll_view env 1 w) as [_ Hio].
  destruct (run env (clean_poll 1) w) as [w1 [[]|e|]]; cbn [fst] in *;
    try (exists []; assumption).
  match goal with
  | |- context [run env ?p w1] => destruct (io_extends env p w1) as (l & Hl)
  end.
  exists l. rewrite Hl, Hio, <- app_assoc. reflexivity.
Qed.

Lemma io_after_bind {A B : Type} (env : Env) (p : Prog A) (f : A -> Prog B) (w : World) :
  exists l, io (fst (run env (bind p f) w)) = (io (fst (run env p w)) ++ l)%list.
Proof.
  rewrite run_bind. destruct (run env p w) as [w1 [a|e|]]; cbn [fst].
  - apply io_extends.
  - exists []. now rewrite app_nil_r.
  - exists []. now rewrite app_nil_r.
Qed.

Lemma io_after_try_catch {A : Type} (env : Env) (p : Prog A) (h : Error -> Prog A)
  (w : World) :
  exists l, io (fst (run env (try_catch p h) w)) = (io (fst (run env p w)) ++ l)%list.
Proof.
  rewrite run_try_catch. destruct (run env p w) as [w1 [a|e|]]; cbn [fst].
  - exists []. now rewrite app_nil_r.
  - apply io_extends.
  - exists []. now rewrite app_nil_r.
Qed.

Lemma io_after_try_finally {A : Type} (env : Env) (p : Prog A) (f : Prog unit)
  (w : World) :
  exists l, io (fst (run env (try_finally p f) w)) = (io (fst (run env p w)) ++ l)%list.
Proof.
  rewrite run_try_finally. destruct (run env p w) as [w1 [a|e|]]; cbn [fst].
  - apply io_extends.
  - apply io_extends.
  - exists []. now rewrite app_nil_r.
Qed.

(** X3: past its guard, [quit()] asks the driver to [close()], then to
    [quit()], then looks for left-over processes, in this order and whatever
    the driver answers: a [close()] that fails does not keep [quit()] from
    being sent. *)
Theorem quit_shutdown_order (env : Env) (w : World) :
  settles env ->
  StateSwitch.current_ (state (browser w)) <> close ->
  exists rest,
    io (fst (run env quit w))
    = (io w ++ [EvCall DriverClose; EvCall DriverQuit; EvCall PsTree] ++ rest)%list.
Proof.
  intros Hs Hc. unfold quit. run_prims.
  destruct (StateSwitch.current_ (state (browser w))) eqn:E; [|congruence].
  run_prims.
  match goal with
  | |- context [run env (quit_body ;; Ret tt) ?v] => set (w0 := v)
  end.
  destruct (io_after_bind env quit_body (fun _ => Ret tt) w0) as (l1 & ->).
  unfold quit_body.
  destruct (io_after_try_finally env (try_catch (quit_driver ;; quit_cleanup) quit_catch)
              (modify (StateSwitch.current close true)) w0) as (l2 & ->).
  destruct (io_after_try_catch env (quit_driver ;; quit_cleanup) quit_catch w0) as (l3 & ->).
  rewrite run_bind.
  destruct (@run_quit_driver env w0 Hs) as (w1 & -> & _ & Hio1).
  unfold quit_cleanup.
  destruct (io_after_try_catch env (clean false) (fun _ => clean true) w1) as (l4 & ->).
  unfold clean. rewrite run_bind, run_log. cbv beta iota. cbn [clean_kill bind].
  destruct (run_retryPromise_clean_first env (add_log verbose "clean(kill=%s)" w1))
    as (r1 & ->).
  cbn [io add_log]. rewrite Hio1. subst w0. cbn [io set_state add_log].
  exists (r1 ++ l4 ++ l3 ++ l2 ++ l1)%list.
  rewrite <- !app_assoc. reflexivity.
Qed.

Lemma quit_shutdown_order_witness :
  settles env_stuck /\
  StateSwitch.current_ (state (browser (stable_open "phantomjs"))) <> close /\
  exists rest,
    io (fst (run env_stuck quit (stable_open "phantomjs")))
    = (io (stable_open "phantomjs")
       ++ [EvCall DriverClose; EvCall DriverQuit; EvCall PsTree] ++ rest)%list.
Proof.
  assert (Hs : settles env_stuck) by (intros h c; discriminate).
  split; [exact Hs|]. split; [discriminate|].
  apply (@quit_shutdown_order env_stuck (stable_open "phantomjs") Hs). discriminate.
Defined.

Lemma run_clean_false_first (env : Env) (w : World) :
  snd (run env getBrowserPidList w) = Returned [] ->
  exists w',
    run env (clean false) w = (w', Returned tt) /\
    browser w' = browser w /\
    io w' = (io w ++ [EvCall PsTree])%list.
Proof.
  intros Hp. unfold clean. rewrite run_bind, run_log. cbv beta iota.
  cbn [clean_kill bind]. unfold retryPromise.
  set (w0 := add_log silly "clean() retryPromise: attempt %s time for timeout %s"
               (add_log verbose "clean(kill=%s)" w)).
  assert (Hv : same_view w0 w) by now split.
  pose proof (run_same_view env getBrowserPidList Hv) as [[Hb Hio] Hs].
  rewrite Hp in Hs.
  destruct (run_getBrowserPidList_view env w) as [Hb2 Hio2].
  rewrite Hb2 in Hb. rewrite Hio2 in Hio.
  destruct (run env getBrowserPidList w0) as [w1 c1] eqn:E1; cbn [fst snd] in *.
  subst c1. exists w1. split; [|split; assumption].
  apply run_retryAttempt_first. unfold clean_poll. run_prims.
  fold w0. rewrite run_bind, E1. reflexivity.
Qed.

(** X4: when the enumeration that follows the driver's shutdown finds no
    browser process, [quit()] is done after that single look: it calls
    [close()], [quit()] and the enumerator once, waits for no back-off
    delay and sends no signal. *)
Theorem quit_clean_exit (env : Env) (w : World) :
  settles env ->
  StateSwitch.current_ (state (browser w)) <> close ->
  snd (run env getBrowserPidList
           (fst (run env quit_driver
                     (set_state (StateSwitch.current close false)
                        (set_state (StateSwitch.target close) w))))) = Returned [] ->
  io (fst (run env quit w))
  = (io w ++ [EvCall DriverClose; EvCall DriverQuit; EvCall PsTree])%list.
Proof.
  intros Hs Hc Hp. unfold quit. run_prims.
  destruct (StateSwitch.current_ (state (browser w))) eqn:E; [|congruence].
  run_prims.
  match goal with
  | |- context [run env (quit_body ;; Ret tt) ?v] => set (w0 := v)
  end.
  assert (Hv : same_view w0 (set_state (StateSwitch.current close false)
                               (set_state (StateSwitch.target close) w))) by now split.
  pose proof (run_same_view env quit_driver Hv) as [Hv1 _].
  rewrite run_bind. unfold quit_body.
  rewrite run_try_finally, run_try_catch, run_bind.
  destruct (@run_quit_driver env w0 Hs) as (w1 & Hr1 & _ & Hio1).
  rewrite Hr1 in *. cbn [fst] in Hv1.
  pose proof (run_same_view env getBrowserPidList Hv1) as [_ Hs1].
  rewrite Hp in Hs1.
  unfold quit_cleanup. rewrite run_try_catch.
  destruct (run_clean_false_first env w1 Hs1) as (w2 & -> & _ & Hio2).
  run_prims. rewrite Hio2, Hio1. subst w0. cbn [io set_state add_log].
  rewrite <- app_assoc. reflexivity.
Qed.

Lemma quit_clean_exit_witness :
  settles env_no_cookies /\
  StateSwitch.current_ (state (browser (opening "chrome-headless"))) <> close /\
  io (fst (run env_no_cookies quit (opening "chrome-headless")))
  = (io (opening "chrome-headless")
     ++ [EvCall DriverClose; EvCall DriverQuit; EvCall PsTree])%list.
Proof.
  assert (Hs : settles env_no_cookies) by (intros h c; discriminate).
  split; [exact Hs|]. split; [discriminate|].
  apply (@quit_clean_exit env_no_cookies (opening "chrome-headless") Hs).
  - discriminate.
  - vm_compute. reflexivity.
Defined.

(** ** [restart()] *)

(** X5: [restart()] on a session that is already closed does not start it:
    the [quit()] it begins with is turned down, [restart()] is rejected
    with that error, [init()] is never reached, no collaborator is called
    and the state stays as it was. *)
Theorem restart_closed (env : Env) (w : World) :
  StateSwitch.current_ (state (browser w)) = close ->
  exists w',
    run env restart w =
      (w', Thrown (mkError
             (if StateSwitch.inprocess (state (browser w))
              then "quit() fail: on a browser with state.current():`close` and inprocess():`true` ?"
              else "quit() fail: on a already quit-ed browser"))) /\
    browser w' = browser w /\
    io w' = io w.
Proof.
  intros Hc. unfold restart. rewrite run_bind, run_log. cbv beta iota.
  rewrite run_bind, run_quit_closed by assumption.
  eexists; repeat split.
Qed.

Lemma restart_closed_witness :
  StateSwitch.current_ (state (browser (initial "chrome"))) = close /\
  exists w',
    run env_ok restart (initial "chrome") =
      (w', Thrown (mkError "quit() fail: on a already quit-ed browser")) /\
    browser w' = browser (initial "chrome") /\
    io w' = io (initial "chrome").
Proof.
  split; [reflexivity|].
  apply (restart_closed env_ok (initial "chrome")). reflexivity.
Defined.

(** X6: [restart()] on a session whose current state is [open] shuts it down
    and starts it again: it ends either resolved, with the session open and
    at rest, or rejected, with the session closed and at rest. *)
Theorem restart_open (env : Env) (w : World) :
  settles env ->
  StateSwitch.current_ (state (browser w)) = open_ ->
  (exists w',
     run env restart w = (w', Returned tt) /\
     state (browser w') = StateSwitch.mk open_ open_ false) \/
  (exists w' e,
     run env restart w = (w', Thrown e) /\
     state (browser w') = StateSwitch.mk close close false).
Proof.
  intros Hs Hc. unfold restart. rewrite run_bind, run_log. cbv beta iota.
  rewrite run_bind.
  destruct (@run_quit_open env (add_log verbose "restart()" w) Hs) as (w1 & -> & Hst).
  { cbn [browser add_log]. rewrite Hc. discriminate. }
  run_prims. rewrite Hst. cbn [StateSwitch.current_ State_eqb andb].
  destruct (@init_alone env w1 Hs) as [(w' & Hr & Hst') | (w' & w2 & e & Hr & Hst' & _)].
  - now rewrite Hst.
  - left. eauto.
  - right. eauto.
Qed.

Lemma restart_open_witness :
  settles env_no_cookies /\
  StateSwitch.current_ (state (browser (stable_open "chrome"))) = open_ /\
  ((exists w',
      run env_no_cookies restart (stable_open "chrome") = (w', Returned tt) /\
      state (browser w') = StateSwitch.mk open_ open_ false) \/
   (exists w' e,
      run env_no_cookies restart (stable_open "chrome") = (w', Thrown e) /\
      state (browser w') = StateSwitch.mk close close false)).
Proof.
  assert (Hs : settles env_no_cookies) by (intros h c; discriminate).
  split; [exact Hs|]. split; [reflexivity|].
  apply (@restart_open env_no_cookies (stable_open "chrome") Hs). reflexivity.
Defined.

(** ** [init()], further *)

(** X7: [init()] on a closed session never ends half-way, provided nobody
    interferes and every promise settles: either it resolves and the session
    is open and at rest, or it is rejected and the session is closed and at
    rest. *)
Theorem init_never_half_open (env : Env) (w : World) :
  settles env ->
  StateSwitch.current_ (state (browser w)) = close ->
  (exists w',
     run env init w = (w', Returned tt) /\
     state (browser w') = StateSwitch.mk open_ open_ false) \/
  (exists w' e,
     run env init w = (w', Thrown e) /\
     state (browser w') = StateSwitch.mk close close false).
Proof.
  intros Hs Hc.
  destruct (@init_alone env w Hs Hc) as [H | (w' & w1 & e & Hr & Hst & _)];
    [now left | right; eauto].
Qed.

Lemma init_never_half_open_witness :
  settles env_stuck /\
  StateSwitch.current_ (state (browser (initial "chrome"))) = close /\
  ((exists w',
      run env_stuck init (initial "chrome") = (w', Returned tt) /\
      state (browser w') = StateSwitch.mk open_ open_ false) \/
   (exists w' e,
      run env_stuck init (initial "chrome") = (w', Thrown e) /\
      state (browser w') = StateSwitch.mk close close false)).
Proof.
  assert (Hs : settles env_stuck) by (intros h c; discriminate).
  split; [exact Hs|]. split; [reflexivity|].
  apply (@init_never_half_open env_stuck (initial "chrome") Hs). reflexivity.
Defined.

(** ** Calls in sequence *)

Lemma run_init_open (env : Env) (w : World) :
  StateSwitch.current_ (state (browser w)) = open_ ->
  exists w' e, run env init w = (w', Thrown e) /\ browser w' = browser w.
Proof.
  intros Hc. unfold init. run_prims. rewrite Hc. run_prims. eauto.
Qed.

Lemma run_method_at_rest (env : Env) (m : Method) (w : World) :
  settles env ->
  at_rest (state (browser w)) ->
  exists w' c,
    run env (method m) w = (w', c) /\ c <> Hung /\ at_rest (state (browser w')).
Proof.
  intros Hs Hrest.
  assert (Hcases : StateSwitch.current_ (state (browser w)) = open_ \/
                   StateSwitch.current_ (state (browser w)) = close)
    by (destruct (StateSwitch.current_ (state (browser w))); auto).
  destruct m; cbn [method].
  - destruct Hcases as [Ho | Hc].
    + destruct (run_init_open env w Ho) as (w' & e & -> & Hb).
      exists w', (Thrown e). rewrite Hb. repeat split; [discriminate | assumption].
    + destruct (@init_alone env w Hs Hc)
        as [(w' & -> & Hst) | (w' & w1 & e & -> & Hst & _)];
        do 2 eexists; (split; [reflexivity|]); rewrite Hst;
        (split; [discriminate|]); [now left | now right].
  - destruct Hcases as [Ho | Hc].
    + destruct (@run_quit_open env w Hs) as (w' & -> & Hst); [congruence|].
      do 2 eexists; split; [reflexivity|]. rewrite Hst. split; [discriminate | now right].
    + rewrite (run_quit_closed env w Hc). do 2 eexists; split; [reflexivity|].
      split; [discriminate | assumption].
  - unfold restart. rewrite run_bind, run_log. cbv beta iota. rewrite run_bind.
    destruct Hcases as [Ho | Hc].
    + destruct (@run_quit_open env (add_log verbose "restart()" w) Hs) as (w1 & -> & Hst).
      { cbn [browser add_log]. congruence. }
      run_prims. rewrite Hst. cbn [StateSwitch.current_ State_eqb andb].
      destruct (@init_alone env w1 Hs)
        as [(w' & -> & Hst') | (w' & w2 & e & -> & Hst' & _)];
        [now rewrite Hst | |];
        do 2 eexists; (split; [reflexivity|]); rewrite Hst';
        (split; [discriminate|]); [now left | now right].
    + rewrite run_quit_closed by assumption.
      do 2 eexists; split; [reflexivity|]. split; [discriminate | assumption].
Qed.

(** X8: a host that calls [init()], [quit()] and [restart()] in any order,
    waiting for each call before it makes the next, always finds the switch
    at rest between two calls, target and current agreeing: the session is
    open, or it is closed, and nothing is in process. *)
Theorem calls_in_sequence_rest (env : Env) (ms : list Method) :
  settles env ->
  forall w,
    at_rest (state (browser w)) ->
    exists w',
      run env (host_calls ms) w = (w', Returned tt) /\
      at_rest (state (browser w')).
Proof.
  intros Hs. induction ms as [|m ms IH]; intros w Hrest; cbn [host_calls].
  - exists w. split; [reflexivity | assumption].
  - rewrite run_bind, run_try_catch.
    destruct (@run_method_at_rest env m w Hs Hrest) as (w1 & c & -> & Hc & Hrest1).
    destruct c as [[]|e|]; [| |congruence]; run_prims; apply IH; assumption.
Qed.

Lemma calls_in_sequence_rest_witness :
  settles env_stuck /\
  at_rest (state (browser (initial "chrome"))) /\
  exists w',
    run env_stuck (host_calls [MQuit; MInit; MRestart; MInit; MQuit]) (initial "chrome")
      = (w', Returned tt) /\
    at_rest (state (browser w')).
Proof.
  assert (Hs : settles env_stuck) by (intros h c; discriminate).
  split; [exact Hs|]. split; [right; reflexivity|].
  apply (@calls_in_sequence_rest env_stuck [MQuit; MInit; MRestart; MInit; MQuit] Hs).
  right; reflexivity.
Defined.

(** ** [open()], further *)

Lemma run_open_attempt_ok (env : Env) (url : string) (ttl : nat) (w : World) :
  get_succeeds_at env url (io w ++ [EvCall (DriverGet url)]) ->
  run env (open_attempt url ttl) w
  = (add_log verbose "open(%s) end at ttl:%d" (add_event (EvCall (DriverGet url)) w),
     Returned tt).
Proof.
  intros (t & Hl & Ht & Hr). unfold open_attempt. cbn [run add_event io].
  rewrite Hl, Hr. apply N.ltb_lt in Ht. unfold TIMEOUT.
  change (60 * 1000)%N with 60000%N. rewrite Ht. reflexivity.
Qed.

Lemma run_open_attempt_fails_at (env : Env) (url : string) (ttl : nat) (w : World) :
  get_fails_at env url (io w ++ [EvCall (DriverGet url)]) ->
  exists e w1 tr,
    run env (open_attempt url ttl) w = (w1, Thrown e) /\
    browser w1 = browser w /\
    io w1 = (io w ++ tr)%list /\
    calls tr = [EvCall (DriverGet url)] /\
    navigations tr = 1%nat.
Proof.
  unfold get_fails_at, open_attempt. cbn [run add_event io]. intros Hf.
  destruct (latency env _ _) as [t|] eqn:El.
  - destruct (t <? TIMEOUT)%N eqn:Et.
    + destruct Hf as [Hf | (e & He)].
      * apply N.ltb_lt in Et. unfold TIMEOUT in Et. lia.
      * rewrite He. run_prims.
        exists e, (add_event (EvCall (DriverGet url)) w), [EvCall (DriverGet url)].
        repeat split.
    + run_prims. do 2 eexists.
      exists [EvCall (DriverGet url); EvTimeout TIMEOUT].
      split; [reflexivity|]. cbn [browser io add_event].
      rewrite <- app_assoc. repeat split.
  - run_prims. do 2 eexists.
    exists [EvCall (DriverGet url); EvTimeout TIMEOUT].
    split; [reflexivity|]. cbn [browser io add_event].
    rewrite <- app_assoc. repeat split.
Qed.

Lemma run_open_loop_first (env : Env) (url : string) (ttl : nat) (w : World) :
  get_succeeds_at env url (io w ++ [EvCall (DriverGet url)]) ->
  exists w',
    run env (open_loop url (S ttl)) w = (w', Returned tt) /\
    browser w' = browser w /\
    io w' = (io w ++ [EvCall (DriverGet url)])%list.
Proof.
  intros Hok. cbn [open_loop]. rewrite run_bind, run_log. cbv beta iota.
  rewrite run_bind, run_try_catch, run_bind.
  rewrite (@run_open_attempt_ok env url ttl (add_log verbose "open() begin for ttl:%d" w) Hok).
  run_prims. eexists; repeat split.
Qed.

Section Retry.

Variable env : Env.
Variable url : string.
Hypothesis resets : resets_succeed env.

Lemma run_open_loop_retry (ttl : nat) :
  forall (k : nat) (w : World),
    (k < ttl)%nat ->
    (forall h, (navigations (io w) < navigations h <= navigations (io w) + k)%nat ->
               get_fails_at env url h) ->
    (forall h, navigations h = (navigations (io w) + k + 1)%nat ->
               get_succeeds_at env url h) ->
    exists w' tr,
      run env (open_loop url ttl) w = (w', Returned tt) /\
      browser w' = browser w /\
      io w' = (io w ++ tr)%list /\
      calls tr =
        (List.concat (repeat [EvCall (DriverGet url); EvCall DriverClose;
                         EvCall DriverQuit; EvCall DriverInit] k)
         ++ [EvCall (DriverGet url)])%list.
Proof.
  induction ttl as [|ttl IH]; intros k w Hk Hfail Hok; [lia|].
  destruct k as [|k].
  - destruct (@run_open_loop_first env url ttl w) as (w' & Hr & Hb & Hio).
    { apply Hok. rewrite navigations_app. cbn. lia. }
    exists w', [EvCall (DriverGet url)]. repeat split; assumption.
  - cbn [open_loop]. rewrite run_bind, run_log. cbv beta iota.
    rewrite run_bind, run_try_catch, run_bind.
    destruct (@run_open_attempt_fails_at env url ttl
                (add_log verbose "open() begin for ttl:%d" w))
      as (e & w1 & tr1 & -> & Hb1 & Hio1 & Hc1 & Hn1).
    { apply Hfail. cbn [io add_log]. rewrite navigations_app. cbn. lia. }
    cbn [io add_log] in Hio1.
    rewrite run_bind, run_log. cbv beta iota.
    rewrite (@run_close_ok env resets), (@run_quit_ok env resets),
      (@run_init_ok env resets).
    run_prims.
    match goal with
    | |- context [run env (open_loop url ttl) ?v] => set (w2 := v)
    end.
    assert (Hio2 : io w2 = (io w ++ tr1 ++ [EvCall DriverClose; EvCall DriverQuit;
                                            EvCall DriverInit])%list).
    { subst w2. cbn [io add_log add_event]. rewrite Hio1, <- !app_assoc. reflexivity. }
    assert (Hn2 : navigations (io w2) = (navigations (io w) + 1)%nat).
    { rewrite Hio2, !navigations_app, Hn1. cbn. lia. }
    destruct (IH k w2) as (w' & tr & -> & Hb & Hio & Hc).
    + lia.
    + intros h Hh. apply Hfail. lia.
    + intros h Hh. apply Hok. lia.
    + exists w', (tr1 ++ [EvCall DriverClose; EvCall DriverQuit; EvCall DriverInit] ++ tr)%list.
      split; [reflexivity|]. split; [|split].
      * rewrite Hb. subst w2. cbn [browser add_log add_event]. assumption.
      * rewrite Hio, Hio2, <- !app_assoc. reflexivity.
      * rewrite !calls_app, Hc1, Hc. reflexivity.
Qed.

End Retry.

(** X9: [open(url)] goes through on the first navigation that is carried out
    in time: when the first [k] navigations fail, [k] being 0, 1 or 2, and
    the next one gets through, [open()] resolves, having reset the driver
    ([close()], [quit()], [init()]) exactly [k] times, once after each
    failure and not after the success. *)
Theorem open_retries (env : Env) (a : ascii) (u : string) (w : World) (k : nat) :
  resets_succeed env ->
  (k < 3)%nat ->
  (forall h, (navigations (io w) < navigations h <= navigations (io w) + k)%nat ->
             get_fails_at env (String a u) h) ->
  (forall h, navigations h = (navigations (io w) + k + 1)%nat ->
             get_succeeds_at env (String a u) h) ->
  exists w' tr,
    run env (open (Some (String a u))) w = (w', Returned tt) /\
    browser w' = browser w /\
    io w' = (io w ++ tr)%list /\
    calls tr =
      (List.concat (repeat [EvCall (DriverGet (String a u)); EvCall DriverClose;
                       EvCall DriverQuit; EvCall DriverInit] k)
       ++ [EvCall (DriverGet (String a u))])%list.
Proof.
  intros Hres Hk Hfail Hok. unfold open. rewrite run_bind, run_log. cbv beta iota.
  cbn [bind].
  destruct (@run_open_loop_retry env (String a u) Hres 3 k (add_log verbose "open(%s)" w)
              Hk Hfail Hok) as (w' & tr & Hr & Hb & Hio & Hc).
  exists w', tr. repeat split; assumption.
Qed.

Lemma open_retries_witness :
  resets_succeed env_third_time /\
  exists w' tr,
    run env_third_time (open (Some "https://wx.qq.com")) (stable_open "chrome")
      = (w', Returned tt) /\
    browser w' = browser (stable_open "chrome") /\
    io w' = (io (stable_open "chrome") ++ tr)%list /\
    calls tr =
      [EvCall (DriverGet "https://wx.qq.com"); EvCall DriverClose;
       EvCall DriverQuit; EvCall DriverInit;
       EvCall (DriverGet "https://wx.qq.com"); EvCall DriverClose;
       EvCall DriverQuit; EvCall DriverInit;
       EvCall (DriverGet "https://wx.qq.com")].
Proof.
  assert (Hres : resets_succeed env_third_time)
    by (intros h; repeat split; try discriminate; reflexivity).
  split; [exact Hres|].
  apply (@open_retries env_third_time "h" "ttps://wx.qq.com" (stable_open "chrome") 2 Hres).
  - lia.
  - intros h [_ Hh]. unfold get_fails_at. cbn [latency env_third_time].
    cbn in Hh. apply Nat.leb_le in Hh. rewrite Hh. exact I.
  - intros h Hh. cbn in Hh. exists 5%N. cbn [latency respond env_third_time].
    rewrite Hh. repeat split.
Defined.

(** X10: [open()] called without a url, or with an empty one, on a session
    whose cookie collaborator knows no host name (null or empty) fails with
    [hostname unknown] and does not touch the driver. *)
Theorem open_hostname_unknown (env : Env) (url : option string) (w : World) :
  url = None \/ url = Some "" ->
  cookie_hostname env (io w ++ [EvHostname]) = None \/
  cookie_hostname env (io w ++ [EvHostname]) = Some "" ->
  exists w',
    run env (open url) w = (w', Thrown (mkError "hostname unknown")) /\
    browser w' = browser w /\
    io w' = (io w ++ [EvHostname])%list.
Proof.
  intros Hu Hh. unfold open. rewrite run_bind, run_log. cbv beta iota.
  destruct Hu as [-> | ->]; cbn [bind run add_event io add_log];
    destruct Hh as [-> | ->]; cbn [bind run]; eexists; repeat split.
Qed.

Lemma open_hostname_unknown_witness :
  (Some "" = None \/ Some "" = Some "") /\
  (cookie_hostname env_stuck (io (initial "chrome") ++ [EvHostname]) = None \/
   cookie_hostname env_stuck (io (initial "chrome") ++ [EvHostname]) = Some "") /\
  exists w',
    run env_stuck (open (Some "")) (initial "chrome")
      = (w', Thrown (mkError "hostname unknown")) /\
    browser w' = browser (initial "chrome") /\
    io w' = (io (initial "chrome") ++ [EvHostname])%list.
Proof.
  split; [now right|]. split; [now left|].
  apply (@open_hostname_unknown env_stuck (Some "") (initial "chrome"));
    [now right | now left].
Defined.

(** X11: the resets of [open()] are not guarded: when a navigation has
    failed and the driver then refuses to [close()], [open()] is rejected
    at once with the driver's error, after that single attempt, and
    neither [quit()] nor [init()] is sent. *)
Theorem open_reset_fails (env : Env) (a : ascii) (u : string) (w : World) (e : Error) :
  get_fails_at env (String a u) (io w ++ [EvCall (DriverGet (String a u))]) ->
  (forall h, latency env h DriverClose <> None /\ respond env h DriverClose = Err e) ->
  exists w' tr,
    run env (open (Some (String a u))) w = (w', Thrown e) /\
    browser w' = browser w /\
    io w' = (io w ++ tr)%list /\
    calls tr = [EvCall (DriverGet (String a u)); EvCall DriverClose].
Proof.
  intros Hfail Hclose. unfold open. rewrite run_bind, run_log. cbv beta iota.
  cbn [bind open_loop]. rewrite run_bind, run_log. cbv beta iota.
  rewrite run_bind, run_try_catch, run_bind.
  destruct (@run_open_attempt_fails_at env (String a u) 2
              (add_log verbose "open() begin for ttl:%d" (add_log verbose "open(%s)" w)))
    as (e1 & w1 & tr1 & -> & Hb1 & Hio1 & Hc1 & _); [exact Hfail|].
  cbn [io add_log browser] in Hio1, Hb1.
  rewrite run_bind, run_log. cbv beta iota.
  rewrite run_bind. unfold await at 1. cbn [run add_event io add_log].
  destruct (Hclose (io w1 ++ [EvCall DriverClose])%list) as [Hl Hr].
  destruct (latency env _ DriverClose); [|congruence].
  rewrite Hr. cbn [run].
  exists (add_event (EvCall DriverClose) (add_log error "open() exception: %s" w1)),
         (tr1 ++ [EvCall DriverClose])%list.
  split; [reflexivity|]. cbn [browser io add_event add_log].
  split; [assumption|]. split.
  - rewrite Hio1, <- app_assoc. reflexivity.
  - rewrite calls_app, Hc1. reflexivity.
Qed.

Lemma open_reset_fails_witness :
  get_fails_at env_stuck "https://wx.qq.com"
    (io (stable_open "chrome") ++ [EvCall (DriverGet "https://wx.qq.com")]) /\
  (forall h, latency env_stuck h DriverClose <> None /\
             respond env_stuck h DriverClose = Err (mkError "ECONNREFUSED")) /\
  exists w' tr,
    run env_stuck (open (Some "https://wx.qq.com")) (stable_open "chrome")
      = (w', Thrown (mkError "ECONNREFUSED")) /\
    browser w' = browser (stable_open "chrome") /\
    io w' = (io (stable_open "chrome") ++ tr)%list /\
    calls tr = [EvCall (DriverGet "https://wx.qq.com"); EvCall DriverClose].
Proof.
  assert (Hf : get_fails_at env_stuck "https://wx.qq.com"
                 (io (stable_open "chrome") ++ [EvCall (DriverGet "https://wx.qq.com")]))
    by (right; eexists; reflexivity).
  assert (Hc : forall h, latency env_stuck h DriverClose <> None /\
                         respond env_stuck h DriverClose = Err (mkError "ECONNREFUSED"))
    by (intros h; split; [discriminate | reflexivity]).
  split; [exact Hf|]. split; [exact Hc|].
  exact (@open_reset_fails env_stuck "h" "ttps://wx.qq.com" (stable_open "chrome")
           (mkError "ECONNREFUSED") Hf Hc).
Defined.

Lemma run_open_ok (env : Env) (url : string) (w : World) :
  url <> "" ->
  get_succeeds_at env url (io w ++ [EvCall (DriverGet url)]) ->
  exists w',
    run env (open (Some url)) w = (w', Returned tt) /\
    browser w' = browser w /\
    io w' = (io w ++ [EvCall (DriverGet url)])%list.
Proof.
  intros Hne Hok. destruct url as [|a u]; [congruence|].
  unfold open. rewrite run_bind, run_log. cbv beta iota. cbn [bind].
  apply (@run_open_loop_first env (String a u) 2 (add_log verbose "open(%s)" w) Hok).
Qed.

Lemma run_open_default_ok (env : Env) (a : ascii) (host : string) (w : World) :
  cookie_hostname env (io w ++ [EvHostname]) = Some (String a host) ->
  get_succeeds_at env ("https://" ++ String a host)
    (io w ++ [EvHostname; EvCall (DriverGet ("https://" ++ String a host))]) ->
  exists w',
    run env (open None) w = (w', Returned tt) /\
    browser w' = browser w /\
    io w' = (io w ++ [EvHostname; EvCall (DriverGet ("https://" ++ String a host))])%list.
Proof.
  intros Hh Hok. unfold open. rewrite run_bind, run_log. cbv beta iota.
  cbn [bind run add_event io add_log]. rewrite Hh. cbn [bind run].
  destruct (@run_open_loop_first env ("https://" ++ String a host) 2
              (add_event EvHostname (add_log verbose "open(%s)" w)))
    as (w' & -> & Hb & Hio).
  { cbn [io add_event add_log]. rewrite <- app_assoc. exact Hok. }
  exists w'. split; [reflexivity|]. split; [assumption|].
  rewrite Hio. cbn [io add_event add_log]. now rewrite <- app_assoc.
Qed.

Lemma run_loadCookie_safe (env : Env) (w : World) :
  latency env (io w ++ [EvCall CookieLoad]) CookieLoad <> None ->
  exists w',
    run env (try_catch loadCookie
               (fun e => log verbose "browser.loadSession(%s) exception: %s")) w
      = (w', Returned tt) /\
    browser w' = browser w /\
    io w' = (io w ++ [EvCall CookieLoad])%list.
Proof.
  intros Hl. unfold loadCookie, await. cbn [try_catch run add_event io].
  destruct (latency env _ CookieLoad); [|congruence].
  destruct (respond env _ CookieLoad) as [[]|e]; run_prims; eexists; repeat split.
Qed.

(** X12: [init()] on a closed session whose driver starts and navigates, and
    whose cookie collaborator knows the host, brings the session up,
    whatever becomes of the cookies: a [loadCookie()] that is rejected is
    logged and ignored.  The collaborators are called in this order: host
    name, [driver.init()], the jump url, the cookies, host name, the site. *)
Theorem init_happy_path (env : Env) (a : ascii) (host : string) (w : World) :
  StateSwitch.current_ (state (browser w)) = close ->
  (forall h, cookie_hostname env h = Some (String a host)) ->
  (forall h, latency env h DriverInit <> None /\ respond env h DriverInit = Ok tt) ->
  (forall h url, get_succeeds_at env url h) ->
  (forall h, latency env h CookieLoad <> None) ->
  exists w',
    run env init w = (w', Returned tt) /\
    state (browser w') = StateSwitch.mk open_ open_ false /\
    io w' = (io w ++ [EvHostname; EvCall DriverInit;
                      EvCall (DriverGet (jumpUrl (Some (String a host))));
                      EvCall CookieLoad; EvHostname;
                      EvCall (DriverGet ("https://" ++ String a host))])%list.
Proof.
  intros Hc Hhost Hinit Hget Hcookie.
  unfold init. run_prims. rewrite Hc. run_prims. rewrite Hhost.
  rewrite run_try_catch. unfold init_try. rewrite run_bind. unfold init_navigate.
  match goal with
  | |- context [run env _ ?v] => set (w0 := v)
  end.
  rewrite (@run_await_bind_ok _ env DriverInit tt) by apply Hinit.
  rewrite run_bind, run_log. cbv beta iota. rewrite run_bind.
  match goal with
  | |- context [run env (open (Some ?j)) ?v] =>
      destruct (@run_open_ok env j v) as (w1 & -> & Hb1 & Hio1);
        [discriminate | apply Hget |]
  end.
  rewrite run_bind.
  destruct (@run_loadCookie_safe env w1) as (w2 & -> & Hb2 & Hio2); [apply Hcookie|].
  destruct (@run_open_default_ok env a host w2) as (w3 & -> & Hb3 & Hio3);
    [apply Hhost | apply Hget |].
  unfold init_commit. run_prims.
  rewrite Hb3, Hb2, Hb1. subst w0.
  cbn [browser add_event set_state state StateSwitch.target StateSwitch.current
       StateSwitch.target_ State_eqb negb].
  run_prims. eexists; split; [reflexivity|].
  cbn [browser set_state state]. rewrite Hb3, Hb2, Hb1.
  cbn [browser add_event set_state state StateSwitch.target StateSwitch.current
       StateSwitch.target_ StateSwitch.current_ StateSwitch.inProcess negb].
  split; [reflexivity|].
  cbn [io set_state]. rewrite Hio3, Hio2, Hio1.
  cbn [io add_event set_state add_log]. rewrite <- !app_assoc. reflexivity.
Qed.

Lemma init_happy_path_witness :
  StateSwitch.current_ (state (browser (initial "chrome"))) = close /\
  respond env_no_cookies [] CookieLoad = Err (mkError "ENOENT") /\
  exists w',
    run env_no_cookies init (initial "chrome") = (w', Returned tt) /\
    state (browser w') = StateSwitch.mk open_ open_ false /\
    io w' = (io (initial "chrome")
             ++ [EvHostname; EvCall DriverInit;
                 EvCall (DriverGet (jumpUrl (Some "wx.qq.com")));
                 EvCall CookieLoad; EvHostname;
                 EvCall (DriverGet ("https://" ++ "wx.qq.com"))])%list.
Proof.
  split; [reflexivity|]. split; [reflexivity|].
  apply (@init_happy_path env_no_cookies "w" "x.qq.com" (initial "chrome")).
  - reflexivity.
  - reflexivity.
  - intros h; split; [discriminate | reflexivity].
  - intros h url. exists 0%N. repeat split.
  - discriminate.
Defined.

(** ** Liveness, further *)

Lemma run_dead_returns (env : Env) (forceReason : Value) (w : World) :
  exists w' d, run env (dead forceReason) w = (w', Returned d).
Proof.
  unfold dead. run_prims.
  destruct (State_eqb _ close || State_eqb _ close); run_prims; [eauto|].
  destruct (truthy forceReason); run_prims.
  - destruct (State_eqb _ open_ && State_eqb _ open_ && _); run_prims; eauto.
  - destruct (negb (driver (browser w))); run_prims; [|eauto].
    destruct (State_eqb _ open_ && State_eqb _ open_ && _); run_prims; eauto.
Qed.

Lemma open_or_dead (w : World) : open_state w \/ dead_state w.
Proof.
  unfold open_state, dead_state.
  destruct (StateSwitch.target_ (state (browser w))),
           (StateSwitch.current_ (state (browser w))); auto.
Qed.

Lemma dead_no_driver (env : Env) (w : World) :
  open_state w -> driver (browser w) = false ->
  exists w', run env (dead VUndefined) w = (w', Returned true).
Proof.
  intros [Ht Hc] Hd. unfold dead. run_prims. rewrite Ht, Hc, Hd.
  cbn [State_eqb orb truthy negb]. run_prims.
  destruct (true && true && StateSwitch.stable (state (browser w))); run_prims; eauto.
Qed.

(** X13: a reason that is falsy in JavaScript (undefined, null, false, 0,
    the empty string) is no reason: on a session in the open state
    [dead(reason)] then answers whether the driver reference is missing,
    and, if it is and the session is stable, notifies the host with the
    reason [no driver or session]; with the driver in place it answers
    false and emits nothing. *)
Theorem dead_without_reason (env : Env) (forceReason : Value) (w : World) :
  open_state w ->
  truthy forceReason = false ->
  exists w',
    run env (dead forceReason) w = (w', Returned (negb (driver (browser w)))) /\
    browser w' = browser w /\
    io w' = (io w ++ if negb (driver (browser w)) && StateSwitch.stable (state (browser w))
                     then [EvEmit "dead" (VStr "no driver or session")] else [])%list.
Proof.
  intros [Ht Hc] Hr. unfold dead. run_prims. rewrite Ht, Hc, Hr.
  unfold StateSwitch.stable. rewrite Ht, Hc.
  cbn [State_eqb orb andb].
  destruct (driver (browser w)); cbn [negb andb]; run_prims.
  - exists w. now rewrite app_nil_r.
  - destruct (StateSwitch.inProcess (state (browser w))); cbn [negb]; run_prims;
      eexists; (split; [reflexivity|]); (split; [reflexivity|]);
      cbn [io add_log add_event]; [now rewrite app_nil_r | reflexivity].
Qed.

Lemma dead_without_reason_witness :
  open_state (driverless "chrome") /\
  truthy (VStr "") = false /\
  exists w',
    run env_ok (dead (VStr "")) (driverless "chrome") = (w', Returned true) /\
    browser w' = browser (driverless "chrome") /\
    io w' = [EvEmit "dead" (VStr "no driver or session")].
Proof.
  split; [split; reflexivity|]. split; [reflexivity|].
  apply (@dead_without_reason env_ok (VStr "") (driverless "chrome")).
  - split; reflexivity.
  - reflexivity.
Defined.

Lemma run_execute_dead (env : Env) (script : string) (args : list Value) (w : World) :
  dead_state w ->
  exists w',
    run env (execute script args) w
      = (w', Thrown (mkError "Browser.execute() browser dead")) /\
    browser w' = browser w /\ io w' = io w.
Proof.
  intros Hd. unfold execute. rewrite run_bind, run_log. cbv beta iota.
  rewrite run_bind.
  destruct (@run_dead_closed env VUndefined
              (add_log silly ("Browser.execute(" ++ double_quote ++ "%s" ++ double_quote ++ ")") w)
              Hd) as (w1 & -> & Hb & Hio).
  run_prims. eexists; repeat split; assumption.
Qed.

Lemma run_execute_live (env : Env) (script : string) (args : list Value) (w : World) :
  open_state w -> driver (browser w) = true ->
  latency env (io w ++ [EvCall (DriverExecuteScript script args)])
          (DriverExecuteScript script args) <> None ->
  exists w',
    run env (execute script args) w
      = (w', match respond env (io w ++ [EvCall (DriverExecuteScript script args)])
                           (DriverExecuteScript script args) with
             | Ok v => Returned v
             | Err e => Thrown e
             end) /\
    browser w' = browser w /\
    io w' = (io w ++ [EvCall (DriverExecuteScript script args)])%list.
Proof.
  intros Ho Hd Hl. unfold execute. rewrite run_bind, run_log. cbv beta iota.
  rewrite run_bind, run_dead_alive by assumption.
  rewrite run_try_catch. unfold await. cbn [run add_event io add_log].
  destruct (latency env _ _); [|congruence].
  destruct (respond env _ _); run_prims; eauto.
Qed.

(** X14: [execute(script, args)] does not touch the driver of a session the
    state machine holds for dead: it fails with [Browser.execute() browser
    dead].  On a live session it makes one [executeScript] call and hands
    back what the driver answers, the value as it is or the error as it
    is. *)
Theorem execute_relays (env : Env) (script : string) (args : list Value) (w : World) :
  (dead_state w ->
   exists w',
     run env (execute script args) w
       = (w', Thrown (mkError "Browser.execute() browser dead")) /\
     io w' = io w) /\
  (open_state w -> driver (browser w) = true ->
   latency env (io w ++ [EvCall (DriverExecuteScript script args)])
           (DriverExecuteScript script args) <> None ->
   exists w',
     run env (execute script args) w
       = (w', match respond env (io w ++ [EvCall (DriverExecuteScript script args)])
                            (DriverExecuteScript script args) with
              | Ok v => Returned v
              | Err e => Thrown e
              end) /\
     browser w' = browser w /\
     io w' = (io w ++ [EvCall (DriverExecuteScript script args)])%list).
Proof.
  split.
  - intros Hd. destruct (@run_execute_dead env script args w Hd) as (w' & Hr & _ & Hio).
    eauto.
  - apply run_execute_live.
Qed.

Lemma execute_relays_witness :
  (exists w',
     run env_ok (execute "return 1" []) (initial "chrome")
       = (w', Thrown (mkError "Browser.execute() browser dead")) /\
     io w' = io (initial "chrome")) /\
  (exists w',
     run env_stuck (execute "return 1" [VNum 7]) (stable_open "chrome")
       = (w', Thrown (mkError "no such session")) /\
     browser w' = browser (stable_open "chrome") /\
     io w' = [EvCall (DriverExecuteScript "return 1" [VNum 7])]).
Proof.
  split.
  - apply (proj1 (execute_relays env_ok "return 1" [] (initial "chrome"))).
    left; reflexivity.
  - apply (proj2 (execute_relays env_stuck "return 1" [VNum 7] (stable_open "chrome"))).
    + split; reflexivity.
    + reflexivity.
    + discriminate.
Defined.

(** X15: [hostname()] is [execute('return location.hostname')] with two more
    log lines: the two have the same outcome, value or error, make the same
    collaborator calls and leave the same state, from any state and with
    any collaborators. *)
Theorem hostname_is_execute (env : Env) (w : World) :
  snd (run env hostname w) = snd (run env (execute "return location.hostname" []) w) /\
  browser (fst (run env hostname w))
    = browser (fst (run env (execute "return location.hostname" []) w)) /\
  io (fst (run env hostname w))
    = io (fst (run env (execute "return location.hostname" []) w)).
Proof.
  unfold hostname. rewrite run_bind, run_log. cbv beta iota. rewrite run_bind.
  pose proof (run_same_view env (execute "return location.hostname" [])
                (same_view_add_log verbose "hostname()" w)) as [[Hb Hio] Hs].
  destruct (run env (execute "return location.hostname" [])
                (add_log verbose "hostname()" w)) as [w1 c1].
  cbn [fst snd] in *. rewrite <- Hs, <- Hb, <- Hio.
  destruct c1; run_prims; repeat split.
Qed.

(** X16: [readyLive()] never rejects: an error of the probe is caught and
    turned into the observed value of the death report. *)
Theorem readyLive_never_throws (env : Env) (w : World) :
  forall w' e, run env readyLive w <> (w', Thrown e).
Proof.
  intros w' e. unfold readyLive. rewrite run_bind, run_log. cbv beta iota.
  rewrite run_bind.
  destruct (run_dead_returns env VUndefined (add_log verbose "readyLive()" w))
    as (w1 & d & ->).
  destruct d; run_prims; [discriminate|].
  rewrite run_bind, run_try_catch.
  assert (Hrest : forall two w2,
             run env (if strict_eq_2 two then Ret true
                      else log warn "readyLive() %s" ;;
                           dead (VStr ("found dead browser coz 1+1 = "
                                       ++ to_string two ++ " (not 2)")) ;;
                           Ret false) w2 <> (w', Thrown e)).
  { intros two w2. destruct (strict_eq_2 two); run_prims; [discriminate|].
    rewrite run_bind.
    match goal with
    | |- context [run env (dead ?r) ?v] =>
        destruct (run_dead_returns env r v) as (w3 & d3 & ->)
    end.
    run_prims. discriminate. }
  destruct (run env (execute "return 1+1" []) w1) as [w2 [v|e2|]].
  - apply Hrest.
  - run_prims. apply Hrest.
  - discriminate.
Qed.

Lemma observed_two (r : Result Value) :
  strict_eq_2 (observed r) = true <-> r = Ok (VNum 2).
Proof.
  destruct r as [[| |b|n|s]|e]; cbn; split; try discriminate.
  - intros H. apply Z.eqb_eq in H. now subst.
  - intros H. injection H as ->. reflexivity.
Qed.

(** X17: provided the probe settles, [readyLive()] answers true in exactly
    one situation: the session is in the open state, the driver reference
    is in place, and the probe script evaluates to the number 2. *)
Theorem readyLive_true_iff (env : Env) (w : World) :
  latency env (io w ++ [EvCall probe]) probe <> None ->
  (snd (run env readyLive w) = Returned true <->
   open_state w /\ driver (browser w) = true /\
   respond env (io w ++ [EvCall probe]) probe = Ok (VNum 2)).
Proof.
  intros Hl. unfold readyLive. rewrite run_bind, run_log. cbv beta iota.
  rewrite run_bind.
  destruct (open_or_dead w) as [Ho | Hd].
  - destruct (driver (browser w)) eqn:Hdr.
    + rewrite run_dead_alive by assumption. run_prims. rewrite run_bind.
      destruct (@run_execute_alive env "return 1+1" []
                  (add_log verbose "readyLive()" w) Ho Hdr Hl)
        as (w1 & -> & Hb1 & Hio1).
      cbn [io add_log]. fold probe.
      destruct (strict_eq_2 (observed (respond env (io w ++ [EvCall probe]) probe)))
        eqn:E2.
      * run_prims. apply observed_two in E2. split; auto.
      * run_prims. rewrite run_bind.
        match goal with
        | |- context [run env (dead ?r) ?v] =>
            destruct (run_dead_returns env r v) as (w3 & d3 & ->)
        end.
        run_prims. split; [discriminate|].
        intros (_ & _ & Hr). apply observed_two in Hr. congruence.
    + destruct (@dead_no_driver env (add_log verbose "readyLive()" w) Ho Hdr)
        as (w1 & ->).
      run_prims. split; [discriminate | intros (_ & H & _); discriminate].
  - destruct (@run_dead_closed env VUndefined (add_log verbose "readyLive()" w) Hd)
      as (w1 & -> & _ & _).
    run_prims. split; [discriminate|].
    intros ([Ht Hc] & _). destruct Hd as [Hd | Hd]; congruence.
Qed.

Lemma readyLive_true_iff_witness :
  latency env_ok (io (stable_open "chrome") ++ [EvCall probe]) probe <> None /\
  (snd (run env_ok readyLive (stable_open "chrome")) = Returned true <->
   open_state (stable_open "chrome") /\ driver (browser (stable_open "chrome")) = true /\
   respond env_ok (io (stable_open "chrome") ++ [EvCall probe]) probe = Ok (VNum 2)).
Proof.
  split; [discriminate|].
  apply (@readyLive_true_iff env_ok (stable_open "chrome")). discriminate.
Defined.

(** ** [getBrowserPidList()] *)

Lemma head_test_cases (hd : string) :
  (head_test hd = Some test_phantomjs /\ String.eqb hd "phantomjs" = true) \/
  (head_test hd = Some test_chrome /\ String.eqb hd "phantomjs" = false /\
   String.eqb hd "chrome" || String.eqb hd "chrome-headless" = true) \/
  (head_test hd = None /\ String.eqb hd "phantomjs" = false /\
   String.eqb hd "chrome" || String.eqb hd "chrome-headless" = false).
Proof.
  unfold head_test.
  destruct (String.eqb hd "phantomjs"); [now left|].
  destruct (String.eqb hd "chrome" || String.eqb hd "chrome-headless"); auto.
Qed.

(** X18: for a head it knows ([phantomjs], [chrome], [chrome-headless]) and
    a process tree that can be listed, [getBrowserPidList()] returns the
    pids of exactly those children whose command text passes the test of
    the head, in the order of the listing; it lists the tree once and
    leaves the state alone. *)
Theorem getBrowserPidList_selects (env : Env) (w : World)
  (test : string -> bool) (children : list Child) :
  head_test (head (browser w)) = Some test ->
  latency env (io w ++ [EvCall PsTree]) PsTree <> None ->
  respond env (io w ++ [EvCall PsTree]) PsTree = Ok children ->
  exists w',
    run env getBrowserPidList w
      = (w', Returned (map PID (filter (fun c => test (command_text c)) children))) /\
    browser w' = browser w /\
    io w' = (io w ++ [EvCall PsTree])%list.
Proof.
  intros Hh Hl Hr. unfold getBrowserPidList. run_prims.
  rewrite run_try_catch, run_bind. unfold await. cbn [run add_event io add_log browser].
  destruct (latency env _ _); [|congruence]. rewrite Hr. run_prims.
  destruct (head_test_cases (head (browser w))) as [[Ht E1] | [(Ht & E1 & E2) | (Ht & _)]];
    rewrite Ht in Hh; [| |discriminate]; injection Hh as <-; rewrite E1, ?E2;
    run_prims; rewrite run_bind;
    match goal with
    | |- context [run env (filter_children ?f ?l) ?w0] =>
        destruct (run_filter_children env f l w0) as (w' & -> & Hb & Hio)
    end; run_prims; eexists; (split; [reflexivity|]); split; assumption.
Qed.

Lemma getBrowserPidList_selects_witness :
  head_test (head (browser (stable_open "chrome-headless"))) = Some test_chrome /\
  exists w',
    run env_orphans getBrowserPidList (stable_open "chrome-headless")
      = (w', Returned [4242; 7]) /\
    browser w' = browser (stable_open "chrome-headless") /\
    io w' = (io (stable_open "chrome-headless") ++ [EvCall PsTree])%list.
Proof.
  split; [reflexivity|].
  apply (@getBrowserPidList_selects env_orphans (stable_open "chrome-headless")
           test_chrome orphans).
  - reflexivity.
  - discriminate.
  - reflexivity.
Defined.

(** X19: [getBrowserPidList()] fails in two ways, both after having asked
    for the process tree: an error of the listing is thrown on as it is, and
    a head it does not know gives [unsupported head: ] followed by the
    head, whatever the tree holds. *)
Theorem getBrowserPidList_fails (env : Env) (w : World) :
  latency env (io w ++ [EvCall PsTree]) PsTree <> None ->
  (forall e,
     respond env (io w ++ [EvCall PsTree]) PsTree = Err e ->
     exists w',
       run env getBrowserPidList w = (w', Thrown e) /\
       browser w' = browser w /\
       io w' = (io w ++ [EvCall PsTree])%list) /\
  (forall children,
     respond env (io w ++ [EvCall PsTree]) PsTree = Ok children ->
     head_test (head (browser w)) = None ->
     exists w',
       run env getBrowserPidList w
         = (w', Thrown (mkError ("unsupported head: " ++ head (browser w)))) /\
       browser w' = browser w /\
       io w' = (io w ++ [EvCall PsTree])%list).
Proof.
  intros Hl. split.
  - intros e Hr. unfold getBrowserPidList. run_prims.
    rewrite run_try_catch, run_bind. unfold await.
    cbn [run add_event io add_log browser].
    destruct (latency env _ _); [|congruence]. rewrite Hr. run_prims.
    eexists; repeat split.
  - intros children Hr Hh. unfold getBrowserPidList. run_prims.
    rewrite run_try_catch, run_bind. unfold await.
    cbn [run add_event io add_log browser].
    destruct (latency env _ _); [|congruence]. rewrite Hr. run_prims.
    destruct (head_test_cases (head (browser w)))
      as [[Ht _] | [(Ht & _) | (_ & E1 & E2)]]; try congruence.
    rewrite E1, E2. run_prims. eexists; repeat split.
Qed.

Lemma getBrowserPidList_fails_witness :
  (exists w',
     run env_stuck getBrowserPidList (stable_open "chrome")
       = (w', Thrown (mkError "ps failed")) /\
     browser w' = browser (stable_open "chrome") /\
     io w' = (io (stable_open "chrome") ++ [EvCall PsTree])%list) /\
  (exists w',
     run env_orphans getBrowserPidList (stable_open "firefox")
       = (w', Thrown (mkError ("unsupported head: " ++ "firefox"))) /\
     browser w' = browser (stable_open "firefox") /\
     io w' = (io (stable_open "firefox") ++ [EvCall PsTree])%list).
Proof.
  split.
  - apply (proj1 (@getBrowserPidList_fails env_stuck (stable_open "chrome")
                    ltac:(discriminate))).
    reflexivity.
  - apply (proj2 (@getBrowserPidList_fails env_orphans (stable_open "firefox")
                    ltac:(discriminate)) orphans); reflexivity.
Defined.

(** ** [clean()], further *)

Lemma total_sleep_app (l l' : list Event) :
  total_sleep (l ++ l') = (total_sleep l + total_sleep l')%N.
Proof.
  induction l as [|ev l IH]; cbn [app total_sleep fold_right]; [reflexivity|].
  fold (total_sleep (l ++ l')). fold (total_sleep l). rewrite IH.
  destruct ev; lia.
Qed.

Lemma polls_app (l l' : list Event) : polls (l ++ l') = (polls l + polls l')%nat.
Proof. unfold polls. now rewrite filter_app, length_app. Qed.

Lemma run_retryAttempt_budget (env : Env) (n : nat) (backoff : N) :
  forall (i : N) (w : World),
    (total_sleep (io (fst (run env (retryAttempt n backoff i clean_poll) w)))
     <= total_sleep (io w) + sleep_budget n backoff i)%N /\
    (polls (io (fst (run env (retryAttempt n backoff i clean_poll) w)))
     <= polls (io w) + S n)%nat.
Proof.
  induction n as [|n IH]; intros i w; cbn [retryAttempt sleep_budget];
    rewrite run_try_catch;
    destruct (run_clean_poll_view env i w) as [_ Hio];
    destruct (run env (clean_poll i) w) as [w1 [[]|e|]]; cbn [fst] in *;
    run_prims;
    try (rewrite Hio, total_sleep_app, polls_app; cbn; split; lia).
  destruct (IH (i + 1)%N (add_event (EvSleep (i * backoff)) w1)) as [Hs Hp].
  cbn [io add_event] in Hs, Hp.
  rewrite Hio, !total_sleep_app in Hs. rewrite Hio, !polls_app in Hp.
  cbn in Hs, Hp. split; lia.
Qed.

Lemma run_clean_kill_view (env : Env) (kill : bool) (w : World) :
  exists l,
    io (fst (run env (clean_kill kill) w)) = (io w ++ l)%list /\
    total_sleep l = 0%N /\
    polls l = (if kill then 1 else 0)%nat.
Proof.
  destruct kill; cbn [clean_kill].
  - rewrite run_bind.
    destruct (run_getBrowserPidList_view env w) as [_ Hio].
    destruct (run env getBrowserPidList w) as [w1 [pids|e|]]; cbn [fst] in *;
      try (exists [EvCall PsTree]; repeat split; assumption).
    run_prims. rewrite run_kill_each. cbn [io fst add_log].
    exists (EvCall PsTree :: map EvKill pids). rewrite Hio, <- app_assoc.
    split; [reflexivity|].
    split; cbn; induction pids; cbn in *; auto.
  - exists []. cbn. now rewrite app_nil_r.
Qed.

(** X20: [clean()] is bounded, whatever the process host does: it lists the
    process tree at most 15 times while polling, once more when it is asked
    to kill, and it spends at most 10500 ms in back-off delays. *)
Theorem clean_budget (env : Env) (kill : bool) (w : World) :
  (total_sleep (io (fst (run env (clean kill) w))) <= total_sleep (io w) + 10500)%N /\
  (polls (io (fst (run env (clean kill) w)))
   <= polls (io w) + 15 + (if kill then 1 else 0))%nat.
Proof.
  unfold clean. rewrite run_bind, run_log. cbv beta iota. rewrite run_bind.
  destruct (run_clean_kill_view env kill (add_log verbose "clean(kill=%s)" w))
    as (l & Hio & Hs & Hp).
  cbn [io add_log] in Hio.
  destruct (run env (clean_kill kill) (add_log verbose "clean(kill=%s)" w))
    as [w1 [[]|e|]]; cbn [fst] in *.
  - destruct (run_retryAttempt_budget env (clean_max - 1) clean_backoff 1 w1) as [Hs1 Hp1].
    unfold retryPromise. rewrite Hio, total_sleep_app, Hs in Hs1.
    rewrite Hio, polls_app, Hp in Hp1.
    change (sleep_budget (clean_max - 1) clean_backoff 1) with 10500%N in Hs1.
    change (S (clean_max - 1)) with 15%nat in Hp1.
    split; [lia | destruct kill; lia].
  - rewrite Hio, total_sleep_app, polls_app, Hs, Hp. split; [lia | destruct kill; lia].
  - rewrite Hio, total_sleep_app, polls_app, Hs, Hp. split; [lia | destruct kill; lia].
Qed.

Lemma run_retryAttempt_success (env : Env) (n : nat) (backoff : N) :
  forall (i : N) (w w' : World),
    run env (retryAttempt n backoff i clean_poll) w = (w', Returned tt) ->
    exists w0 w1,
      run env getBrowserPidList w0 = (w1, Returned []) /\
      browser w0 = browser w /\ browser w' = browser w /\ io w1 = io w'.
Proof.
  assert (Hpoll : forall i w w',
             run env (clean_poll i) w = (w', Returned tt) ->
             exists w0 w1,
               run env getBrowserPidList w0 = (w1, Returned []) /\
               browser w0 = browser w /\ browser w' = browser w /\ io w1 = io w').
  { intros i w w'. unfold clean_poll. run_prims. rewrite run_bind.
    pose proof (run_getBrowserPidList_view env
                  (add_log silly "clean() retryPromise: attempt %s time for timeout %s" w))
      as [Hb _].
    destruct (run env getBrowserPidList _) as [w1 [pids|e|]] eqn:E;
      cbn [fst] in Hb; try discriminate.
    destruct pids as [|pid pids]; cbn [List.length Nat.ltb Nat.leb]; run_prims;
      [|discriminate].
    intros H. injection H as <-.
    exists (add_log silly "clean() retryPromise: attempt %s time for timeout %s" w), w1.
    repeat split; assumption. }
  induction n as [|n IH]; intros i w w'; cbn [retryAttempt]; rewrite run_try_catch;
    pose proof (Hpoll i w) as Hp;
    pose proof (run_clean_poll_view env i w) as [Hb1 _];
    destruct (run env (clean_poll i) w) as [w1 [[]|e|]]; cbn [fst] in Hb1;
    run_prims; try discriminate;
    try (intros H; injection H as <-; now apply Hp).
  intros H. destruct (IH _ _ _ H) as (w0 & w2 & Hr & Hb0 & Hb' & Hio).
  cbn [browser add_event] in Hb0, Hb'.
  exists w0, w2. repeat split; congruence.
Qed.

(** X21: [clean()] resolves only on evidence: when it returns normally, the
    last thing it did was an enumeration that found no matching browser
    process. *)
Theorem clean_success_means_none_left (env : Env) (kill : bool) (w w' : World) :
  run env (clean kill) w = (w', Returned tt) ->
  exists w0 w1,
    run env getBrowserPidList w0 = (w1, Returned []) /\
    browser w0 = browser w /\
    io w1 = io w'.
Proof.
  unfold clean. rewrite run_bind, run_log. cbv beta iota. rewrite run_bind.
  assert (Hb : browser (fst (run env (clean_kill kill) (add_log verbose "clean(kill=%s)" w)))
               = browser w).
  { assert (HN : NoModify (clean_kill kill)).
    { unfold clean_kill, log.
      pose proof NoModify_getBrowserPidList. pose proof NoModify_kill_each. frame. }
    exact (@run_NoModify unit env (clean_kill kill) HN
             (add_log verbose "clean(kill=%s)" w)). }
  destruct (run env (clean_kill kill) (add_log verbose "clean(kill=%s)" w))
    as [wk [[]|e|]]; cbn [fst] in Hb; try discriminate.
  unfold retryPromise. intros H.
  destruct (run_retryAttempt_success env _ _ _ _ H) as (w0 & w1 & Hr & Hb0 & _ & Hio).
  exists w0, w1. repeat split; congruence.
Qed.

Lemma clean_success_means_none_left_witness :
  exists w',
    run env_ok (clean true) (stable_open "chrome") = (w', Returned tt) /\
    exists w0 w1,
      run env_ok getBrowserPidList w0 = (w1, Returned []) /\
      browser w0 = browser (stable_open "chrome") /\
      io w1 = io w'.
Proof.
  eexists. split; [vm_compute; reflexivity|].
  eapply (@clean_success_means_none_left env_ok true (stable_open "chrome")).
  vm_compute; reflexivity.
Defined.

Section Failing.

Variable env : Env.
Variable b : Browser.
Variable e0 : Error.

(** Whenever the enumerator is asked, it fails with [e0]. *)
Hypothesis failing :
  forall w0, browser w0 = b -> snd (run env getBrowserPidList w0) = Thrown e0.

Lemma run_clean_poll_rethrows (i : N) (w0 : World) :
  browser w0 = b ->
  exists w1,
    run env (clean_poll i) w0 = (w1, Thrown e0) /\
    browser w1 = b /\ io w1 = (io w0 ++ [EvCall PsTree])%list.
Proof.
  intros Hb.
  destruct (run_clean_poll_view env i w0) as [Hb1 Hio1].
  revert Hb1 Hio1. unfold clean_poll. run_prims. rewrite run_bind.
  pose proof (failing (add_log silly
                "clean() retryPromise: attempt %s time for timeout %s" w0) Hb) as Hf.
  destruct (run env getBrowserPidList _) as [w1 c]; cbn [snd] in Hf; subst c.
  cbn [fst]. intros Hb1 Hio1. exists w1. repeat split; congruence.
Qed.

Lemma run_retryAttempt_rethrows (n : nat) (backoff : N) :
  forall (i : N) (w0 : World),
    browser w0 = b ->
    exists w1,
      run env (retryAttempt n backoff i clean_poll) w0 = (w1, Thrown e0) /\
      browser w1 = b /\
      io w1 = (io w0 ++ exhausted_trace n backoff i)%list.
Proof.
  induction n as [|n IH]; intros i w0 Hb; cbn [retryAttempt exhausted_trace];
    rewrite run_try_catch;
    destruct (run_clean_poll_rethrows i w0 Hb) as (w1 & -> & Hb1 & Hio1).
  - run_prims. eauto.
  - run_prims.
    destruct (IH (i + 1)%N (add_event (EvSleep (i * backoff)) w1) Hb1)
      as (w2 & -> & Hb2 & Hio2).
    exists w2. repeat split; auto.
    rewrite Hio2. cbn [io add_event]. rewrite Hio1, <- !app_assoc. reflexivity.
Qed.

End Failing.

(** X22: a process host that cannot be asked (the listing fails, or the
    head is not a known one) is treated like one that still reports
    browsers: [clean(false)] asks 15 times, waiting 100, 200, ... 1400 ms in
    between, before it fails with the error of the enumeration, while
    [clean(true)] fails with it at once, before any signal is sent. *)
Theorem clean_enumerator_fails (env : Env) (w : World) (e0 : Error) :
  (forall w0, browser w0 = browser w -> snd (run env getBrowserPidList w0) = Thrown e0) ->
  (exists w',
     run env (clean false) w = (w', Thrown e0) /\
     io w' = (io w
              ++ [EvCall PsTree; EvSleep 100; EvCall PsTree; EvSleep 200;
                  EvCall PsTree; EvSleep 300; EvCall PsTree; EvSleep 400;
                  EvCall PsTree; EvSleep 500; EvCall PsTree; EvSleep 600;
                  EvCall PsTree; EvSleep 700; EvCall PsTree; EvSleep 800;
                  EvCall PsTree; EvSleep 900; EvCall PsTree; EvSleep 1000;
                  EvCall PsTree; EvSleep 1100; EvCall PsTree; EvSleep 1200;
                  EvCall PsTree; EvSleep 1300; EvCall PsTree; EvSleep 1400;
                  EvCall PsTree])%list) /\
  (exists w',
     run env (clean true) w = (w', Thrown e0) /\
     io w' = (io w ++ [EvCall PsTree])%list).
Proof.
  intros Hf. split.
  - unfold clean. rewrite run_bind, run_log. cbv beta iota.
    cbn [clean_kill bind]. unfold retryPromise.
    destruct (@run_retryAttempt_rethrows env (browser w) e0 Hf (clean_max - 1)
                clean_backoff 1%N (add_log verbose "clean(kill=%s)" w) eq_refl)
      as (w1 & -> & _ & Hio).
    exists w1. split; [reflexivity | exact Hio].
  - unfold clean. rewrite run_bind, run_log. cbv beta iota.
    rewrite run_bind. cbn [clean_kill]. rewrite run_bind.
    pose proof (Hf (add_log verbose "clean(kill=%s)" w) eq_refl) as Hk.
    destruct (run_getBrowserPidList_view env (add_log verbose "clean(kill=%s)" w))
      as [_ Hio].
    destruct (run env getBrowserPidList (add_log verbose "clean(kill=%s)" w))
      as [w1 c]; cbn [fst snd] in *. subst c.
    exists w1. split; [reflexivity | exact Hio].
Qed.

Lemma clean_enumerator_fails_witness :
  (forall w0, browser w0 = browser (stable_open "firefox") ->
     snd (run env_orphans getBrowserPidList w0)
     = Thrown (mkError ("unsupported head: " ++ "firefox"))) /\
  (exists w',
     run env_orphans (clean false) (stable_open "firefox")
       = (w', Thrown (mkError ("unsupported head: " ++ "firefox"))) /\
     io w' = (io (stable_open "firefox")
              ++ [EvCall PsTree; EvSleep 100; EvCall PsTree; EvSleep 200;
                  EvCall PsTree; EvSleep 300; EvCall PsTree; EvSleep 400;
                  EvCall PsTree; EvSleep 500; EvCall PsTree; EvSleep 600;
                  EvCall PsTree; EvSleep 700; EvCall PsTree; EvSleep 800;
                  EvCall PsTree; EvSleep 900; EvCall PsTree; EvSleep 1000;
                  EvCall PsTree; EvSleep 1100; EvCall PsTree; EvSleep 1200;
                  EvCall PsTree; EvSleep 1300; EvCall PsTree; EvSleep 1400;
                  EvCall PsTree])%list) /\
  (exists w',
     run env_orphans (clean true) (stable_open "firefox")
       = (w', Thrown (mkError ("unsupported head: " ++ "firefox"))) /\
     io w' = (io (stable_open "firefox") ++ [EvCall PsTree])%list).
Proof.
  assert (Hf : forall w0, browser w0 = browser (stable_open "firefox") ->
                 snd (run env_orphans getBrowserPidList w0)
                 = Thrown (mkError ("unsupported head: " ++ "firefox"))).
  { intros w0 Hb. unfold getBrowserPidList. run_prims. rewrite Hb.
    vm_compute. reflexivity. }
  split; [exact Hf|].
  exact (@clean_enumerator_fails env_orphans (stable_open "firefox") _ Hf).
Defined.

(** ** The test for the chrome family *)

Lemma exists_suffix_app (f : string -> bool) (pre s : string) :
  f s = true -> exists_suffix f (pre ++ s) = true.
Proof.
  intros Hf. induction pre as [|a pre IH]; cbn [append exists_suffix].
  - destruct s; cbn [exists_suffix]; now rewrite Hf.
  - rewrite IH. apply orb_true_r.
Qed.

(** X23: [chrome(?!driver)|chromium], without case: a command text is taken
    for a browser as soon as it holds [chromium] somewhere, or [chrome]
    somewhere not directly followed by [driver], whatever comes before. *)
Theorem test_chrome_selects (pre s : string) :
  starts_with_i "chromium" s = true \/
  (starts_with_i "chrome" s = true /\ starts_with_i "driver" (drop 6 s) = false) ->
  test_chrome (pre ++ s) = true.
Proof.
  intros H. unfold test_chrome. apply exists_suffix_app.
  destruct H as [-> | [-> ->]]; [apply orb_true_r | reflexivity].
Qed.

Lemma test_chrome_selects_witness :
  (starts_with_i "chromium" "Chrome Helper --type=renderer" = true \/
   (starts_with_i "chrome" "Chrome Helper --type=renderer" = true /\
    starts_with_i "driver" (drop 6 "Chrome Helper --type=renderer") = false)) /\
  test_chrome ("/Applications/Google " ++ "Chrome Helper --type=renderer") = true.
Proof.
  assert (H : starts_with_i "chromium" "Chrome Helper --type=renderer" = true \/
              (starts_with_i "chrome" "Chrome Helper --type=renderer" = true /\
               starts_with_i "driver" (drop 6 "Chrome Helper --type=renderer") = false))
    by (right; split; reflexivity).
  split; [exact H|].
  exact (@test_chrome_selects "/Applications/Google " "Chrome Helper --type=renderer" H).
Defined.

Lemma chrome_test_needs_c (a : ascii) (t : string) :
  Ascii.eqb (lower a) "c" = false ->
  (starts_with_i "chrome" (String a t)
   && negb (starts_with_i "driver" (drop 6 (String a t)))
   || starts_with_i "chromium" (String a t)) = false.
Proof.
  intros Ha. cbn [starts_with_i].
  change (lower "c") with "c"%char.
  rewrite Ascii.eqb_sym, Ha. reflexivity.
Qed.

Lemma no_c_no_chrome (s : string) :
  no_c s = true ->
  exists_suffix
    (fun t => (starts_with_i "chrome" t && negb (starts_with_i "driver" (drop 6 t)))
              || starts_with_i "chromium" t) s = false.
Proof.
  induction s as [|a s IH]; cbn [no_c exists_suffix]; [reflexivity|].
  intros H. apply andb_prop in H as [Ha Hs].
  apply negb_true_iff in Ha.
  rewrite (chrome_test_needs_c a s Ha), (IH Hs). reflexivity.
Qed.

Lemma starts_with_i_cons (p a : ascii) (ps s : string) :
  starts_with_i (String p ps) (String a s) = true ->
  lower a = lower p /\ starts_with_i ps s = true.
Proof.
  cbn [starts_with_i]. intros H. apply andb_prop in H as [H1 H2].
  apply Ascii.eqb_eq in H1. auto.
Qed.

(** X24: the driver companion is spared: a command text in which
    [chromedriver], in any case, is the only place where the letter c
    occurs is not taken for a browser by the test [getBrowserPidList()]
    applies under the heads [chrome] and [chrome-headless]. *)
Theorem test_chrome_spares_driver (pre s : string) :
  no_c pre = true ->
  starts_with_i "chromedriver" s = true ->
  no_c (drop 12 s) = true ->
  test_chrome (pre ++ s) = false.
Proof.
  intros Hpre Hs Hrest. unfold test_chrome.
  induction pre as [|a pre IH]; cbn [append].
  - clear Hpre.
    do 12 (match type of Hs with
           | starts_with_i (String _ _) ?t = true =>
               destruct t as [|? ?];
               [cbn in Hs; discriminate
               | let E := fresh "E" in apply starts_with_i_cons in Hs as [E Hs]]
           end).
    cbn [drop] in Hrest.
    cbn [exists_suffix].
    rewrite (no_c_no_chrome _ Hrest).
    cbn [starts_with_i drop].
    repeat match goal with
           | E : lower _ = lower _ |- _ => rewrite E; clear E
           end.
    vm_compute. reflexivity.
  - cbn [no_c] in Hpre. apply andb_prop in Hpre as [Ha Hp].
    apply negb_true_iff in Ha.
    cbn [exists_suffix]. rewrite (chrome_test_needs_c a (pre ++ s) Ha), (IH Hp).
    reflexivity.
Qed.

Lemma test_chrome_spares_driver_witness :
  no_c "/usr/bin/" = true /\
  starts_with_i "chromedriver" "ChromeDriver --port=9515" = true /\
  no_c (drop 12 "ChromeDriver --port=9515") = true /\
  test_chrome ("/usr/bin/" ++ "ChromeDriver --port=9515") = false.
Proof.
  split; [reflexivity|]. split; [reflexivity|]. split; [reflexivity|].
  apply (@test_chrome_spares_driver "/usr/bin/" "ChromeDriver --port=9515");
    reflexivity.
Defined.

(** ** What the others see of a call in flight *)

(** X26: a death reported while the session is still opening, or in any
    other open state that is not stable, is answered true but not passed on
    to the host: no [dead] event is emitted, only a warning is logged. *)
Theorem dead_silent_in_process (env : Env) (forceReason : Value) (w : World) :
  open_state w ->
  StateSwitch.inProcess (state (browser w)) = true ->
  truthy forceReason = true ->
  exists w',
    run env (dead forceReason) w = (w', Returned true) /\
    browser w' = browser w /\
    io w' = io w /\
    In (warn, "dead() wil not emit `dead` event because states are: target(%s), current(%s), stable(%s)")
       (logs w').
Proof.
  intros [Ht Hc] Hp Hr. unfold dead. run_prims. rewrite Ht, Hc, Hr.
  unfold StateSwitch.stable. rewrite Ht, Hc, Hp. cbn [State_eqb orb andb negb].
  run_prims. eexists. split; [reflexivity|]. cbn [browser io logs add_log].
  repeat split. apply in_or_app. right. now left.
Qed.

Lemma dead_silent_in_process_witness :
  open_state (opening "chrome") /\
  StateSwitch.inProcess (state (browser (opening "chrome"))) = true /\
  truthy (VStr "renderer crashed") = true /\
  exists w',
    run env_ok (dead (VStr "renderer crashed")) (opening "chrome") = (w', Returned true) /\
    browser w' = browser (opening "chrome") /\
    io w' = io (opening "chrome") /\
    In (warn, "dead() wil not emit `dead` event because states are: target(%s), current(%s), stable(%s)")
       (logs w').
Proof.
  split; [split; reflexivity|]. split; [reflexivity|]. split; [reflexivity|].
  apply (@dead_silent_in_process env_ok (VStr "renderer crashed") (opening "chrome"));
    try reflexivity. split; reflexivity.
Defined.

(** X27: [open()] never writes to the state switch.  In particular, when it
    gives up on a session that is open, it has closed and quit the driver,
    and yet the session is still held for open: the dead-state check that
    follows answers false. *)
Theorem open_exhausted_still_open (env : Env) (a : ascii) (u : string) (w : World) :
  (forall url, browser (fst (run env (open url) w)) = browser w) /\
  (resets_succeed env -> get_fails env (String a u) ->
   open_state w -> driver (browser w) = true ->
   exists w' tr,
     run env (open (Some (String a u))) w
       = (w', Thrown (mkError "open fail because ttl expired")) /\
     io w' = (io w ++ tr ++ [EvCall DriverClose; EvCall DriverQuit])%list /\
     forall env', run env' (dead VUndefined) w' = (w', Returned false)).
Proof.
  split.
  - intros url. apply run_NoModify, NoModify_open.
  - intros Hres Hfail Ho Hd.
    pose proof (run_NoModify env (NoModify_open (Some (String a u))) w) as Hb.
    assert (Hend : forall ttl w0, exists tr,
               io (fst (run env (open_loop (String a u) ttl) w0))
               = (io w0 ++ tr ++ [EvCall DriverClose; EvCall DriverQuit])%list).
    { induction ttl as [|ttl IH]; intros w0; cbn [open_loop].
      - rewrite (@run_close_ok env Hres), (@run_quit_ok env Hres). run_prims.
        exists []. cbn [app]. now rewrite <- app_assoc.
      - rewrite run_bind, run_log. cbv beta iota.
        rewrite run_bind, run_try_catch, run_bind.
        destruct (@run_open_attempt_fails env (String a u) Hfail ttl
                    (add_log verbose "open() begin for ttl:%d" w0))
          as (e & w1 & tr1 & -> & _ & Hio1 & _).
        rewrite run_bind, run_log. cbv beta iota.
        rewrite (@run_close_ok env Hres), (@run_quit_ok env Hres),
          (@run_init_ok env Hres).
        run_prims.
        match goal with
        | |- context [run env (open_loop (String a u) ttl) ?v] =>
            destruct (IH v) as (tr & ->)
        end.
        cbn [io add_event add_log] in *. rewrite Hio1.
        exists (tr1 ++ [EvCall DriverClose; EvCall DriverQuit; EvCall DriverInit] ++ tr)%list.
        rewrite <- !app_assoc. reflexivity. }
    revert Hb. unfold open. rewrite run_bind, run_log. cbv beta iota. cbn [bind].
    destruct (Hend 3%nat (add_log verbose "open(%s)" w)) as (tr & Hio).
    destruct (@run_open_loop_exhausts env (String a u) Hres Hfail 3
                (add_log verbose "open(%s)" w)) as (w' & tr' & Hr & _).
    rewrite Hr in *. cbn [fst] in *. intros Hb.
    exists w', tr. split; [reflexivity|]. split; [exact Hio|].
    intros env'. apply run_dead_alive; [|now rewrite Hb].
    unfold open_state. now rewrite Hb.
Qed.

Lemma open_exhausted_still_open_witness :
  resets_succeed env_get_hangs /\
  get_fails env_get_hangs "https://wx.qq.com" /\
  open_state (stable_open "chrome") /\
  exists w' tr,
    run env_get_hangs (open (Some "https://wx.qq.com")) (stable_open "chrome")
      = (w', Thrown (mkError "open fail because ttl expired")) /\
    io w' = (io (stable_open "chrome") ++ tr ++ [EvCall DriverClose; EvCall DriverQuit])%list /\
    forall env', run env' (dead VUndefined) w' = (w', Returned false).
Proof.
  assert (Hres : resets_succeed env_get_hangs)
    by (intros h; repeat split; try discriminate; reflexivity).
  assert (Hfail : get_fails env_get_hangs "https://wx.qq.com")
    by (intros h; exact I).
  assert (Ho : open_state (stable_open "chrome")) by (split; reflexivity).
  split; [exact Hres|]. split; [exact Hfail|]. split; [exact Ho|].
  exact (proj2 (@open_exhausted_still_open env_get_hangs "h" "ttps://wx.qq.com"
                  (stable_open "chrome")) Hres Hfail Ho eq_refl).
Defined.

(** * Calls in flight *)

(** ** The pool *)










(** ** Programs that do not throw *)








(** ** A [quit()] in flight *)






(** ** Once [quit()] is called, only a new [init()] reopens the session *)

















(** ** Calls can be resumed to their end *)




(** ** Where [quit()] ends *)





